(** * NWR_Bookings: the lodge booking dashboard (app.py)

    A shallow embedding of the dashboard script: the extraction query of
    [load_data], the derived columns, the boolean-mask filter, and the
    KPI and chart aggregates, followed by the properties of the
    specification that concern them.

    Conventions.
    - A calendar date is its proleptic Gregorian ordinal (day 1 is
      0001-01-01), the number CPython's [date.toordinal] returns; the
      conversions to and from (year, month, day) follow CPython's
      [_ymd2ord] and [_ord2ymd].
    - SQL NULL, Python None and pandas NaN/NaT are [None].
    - A DataFrame is the list of its rows, in index order. *)

From Stdlib Require Import ZArith List String Ascii Bool Lia QArith.
From Stdlib Require Import Sorted Permutation.
Import ListNotations.
Open Scope Z_scope.

(* ===================================================================== *)
(** * Part I: definitions *)
(* ===================================================================== *)

(** ** The Gregorian calendar *)

Module Calendar.

Definition Date := Z.

Definition is_leap (year : Z) : bool :=
  (year mod 4 =? 0) && (negb (year mod 100 =? 0) || (year mod 400 =? 0)).

Definition days_before_year (year : Z) : Z :=
  let y := year - 1 in y * 365 + y / 4 - y / 100 + y / 400.

(** The table [_DAYS_IN_MONTH], index 0 unused. *)
Definition DAYS_IN_MONTH (month : Z) : Z :=
  match month with
  | 1 => 31 | 2 => 28 | 3 => 31 | 4 => 30 | 5 => 31 | 6 => 30
  | 7 => 31 | 8 => 31 | 9 => 30 | 10 => 31 | 11 => 30 | 12 => 31
  | _ => -1
  end.

(** The table [_DAYS_BEFORE_MONTH], index 0 unused. *)
Definition DAYS_BEFORE_MONTH (month : Z) : Z :=
  match month with
  | 1 => 0 | 2 => 31 | 3 => 59 | 4 => 90 | 5 => 120 | 6 => 151
  | 7 => 181 | 8 => 212 | 9 => 243 | 10 => 273 | 11 => 304 | 12 => 334
  | _ => -1
  end.

Definition days_in_month (year month : Z) : Z :=
  if (month =? 2) && is_leap year then 29 else DAYS_IN_MONTH month.

Definition days_before_month (year month : Z) : Z :=
  DAYS_BEFORE_MONTH month + (if (2 <? month) && is_leap year then 1 else 0).

Definition valid_ymd (year month day : Z) : bool :=
  (1 <=? month) && (month <=? 12) && (1 <=? day) && (day <=? days_in_month year month).

Definition ymd2ord (year month day : Z) : Date :=
  days_before_year year + days_before_month year month + day.

Definition DI400Y : Z := Eval cbv in days_before_year 401.
Definition DI100Y : Z := Eval cbv in days_before_year 101.
Definition DI4Y : Z := Eval cbv in days_before_year 5.

Definition ord2ymd (ordinal : Date) : Z * Z * Z :=
  let n := ordinal - 1 in
  let n400 := n / DI400Y in
  let n := n mod DI400Y in
  let year := n400 * 400 + 1 in
  let n100 := n / DI100Y in
  let n := n mod DI100Y in
  let n4 := n / DI4Y in
  let n := n mod DI4Y in
  let n1 := n / 365 in
  let n := n mod 365 in
  let year := year + n100 * 100 + n4 * 4 + n1 in
  if (n1 =? 4) || (n100 =? 4) then (year - 1, 12, 31)
  else
    let leapyear := (n1 =? 3) && (negb (n4 =? 24) || (n100 =? 3)) in
    let month := Z.shiftr (n + 50) 5 in
    let preceding :=
      DAYS_BEFORE_MONTH month + (if (2 <? month) && leapyear then 1 else 0) in
    if n <? preceding then
      let month := month - 1 in
      let preceding :=
        preceding
        - (DAYS_IN_MONTH month + (if (month =? 2) && leapyear then 1 else 0)) in
      (year, month, n - preceding + 1)
    else (year, month, n - preceding + 1).

(** The last steps of [ord2ymd]: month and day from the day number
    within the year. *)
Definition month_day (n : Z) (leapyear : bool) : Z * Z :=
  let month := Z.shiftr (n + 50) 5 in
  let preceding :=
    DAYS_BEFORE_MONTH month + (if (2 <? month) && leapyear then 1 else 0) in
  if n <? preceding then
    let month := month - 1 in
    let preceding :=
      preceding
      - (DAYS_IN_MONTH month + (if (month =? 2) && leapyear then 1 else 0)) in
    (month, n - preceding + 1)
  else (month, n - preceding + 1).

(** The assertion at the end of [_ord2ymd], as a check. *)
Definition month_day_ok (leapyear : bool) (n : nat) : bool :=
  let '(m, d) := month_day (Z.of_nat n) leapyear in
  (1 <=? m) && (m <=? 12) && (1 <=? d)
  && (d <=? (if (m =? 2) && leapyear then 29 else DAYS_IN_MONTH m))
  && (DAYS_BEFORE_MONTH m + (if (2 <? m) && leapyear then 1 else 0) + d
      =? Z.of_nat n + 1).

Definition year_of (d : Date) : Z := fst (fst (ord2ymd d)).
Definition month_of (d : Date) : Z := snd (fst (ord2ymd d)).
Definition day_of (d : Date) : Z := snd (ord2ymd d).

(** Decimal rendering, as [str(int)] does for a non-negative integer. *)
Definition digit_char (d : Z) : ascii :=
  ascii_of_N (48 + Z.to_N d).

Fixpoint str_digits (fuel : nat) (n : Z) (acc : string) : string :=
  match fuel with
  | O => acc
  | S fuel' =>
      let acc' := String (digit_char (n mod 10)) acc in
      if n / 10 =? 0 then acc' else str_digits fuel' (n / 10) acc'
  end.

Definition str_of_int (n : Z) : string :=
  if n <? 0 then String "-" (str_digits (S (Z.to_nat (Z.log2 (- n)))) (- n) EmptyString)
  else str_digits (S (Z.to_nat (Z.log2 n))) n EmptyString.

(** The format [%02d] for a non-negative integer. *)
Definition str_02d (n : Z) : string :=
  if n <? 10 then String "0" (str_of_int n) else str_of_int n.

(** [str(Period(d, 'M'))]: year, a dash, the two-digit month. *)
Definition period_M_str (d : Date) : string :=
  str_of_int (year_of d) ++ "-" ++ str_02d (month_of d).

(** The rank of the month of [d] in chronological order. *)
Definition period_ordinal (d : Date) : Z := year_of d * 12 + month_of d.

Definition four_digit_year (d : Date) : Prop := 1000 <= year_of d <= 9999.

(** Reading a ten-character literal [YYYY-MM-DD]. *)
Definition digit_val (c : ascii) : option Z :=
  let n := Z.of_N (N_of_ascii c) in
  if (48 <=? n) && (n <=? 57) then Some (n - 48) else None.

Definition digits2 (a b : ascii) : option Z :=
  match digit_val a, digit_val b with
  | Some x, Some y => Some (10 * x + y)
  | _, _ => None
  end.

Definition parse_date (s : string) : option Date :=
  match s with
  | String y3 (String y2 (String y1 (String y0 (String "-"
      (String m1 (String m0 (String "-" (String d1 (String d0 EmptyString))))))))) =>
      match digits2 y3 y2, digits2 y1 y0, digits2 m1 m0, digits2 d1 d0 with
      | Some yh, Some yl, Some m, Some d =>
          let y := 100 * yh + yl in
          if valid_ymd y m d then Some (ymd2ord y m d) else None
      | _, _, _, _ => None
      end
  | _ => None
  end.

End Calendar.
Import Calendar.


(** ** Exceptions and results *)

Inductive exn : Type :=
| ConnectionError        (* pyodbc.connect could not reach the server *)
| DateaddOverflow        (* SQL Server: adding a value to a datetime overflowed *)
| ArithmeticOverflow     (* SQL Server: the DATEADD number does not fit an int *)
| OutOfBoundsDatetime    (* pandas: a date outside the datetime64[ns] range *)
| TypeError              (* pandas: a datetime64 column subtracted from an object column *)
| KeyError.              (* pandas: label 0 absent from the index *)

Inductive result (A : Type) : Type :=
| Ok (a : A)
| Raise (e : exn).
Arguments Ok {A} a.
Arguments Raise {A} e.

Definition bind {A B : Type} (r : result A) (k : A -> result B) : result B :=
  match r with
  | Ok a => k a
  | Raise e => Raise e
  end.

Declare Scope result_scope.
Delimit Scope result_scope with result.
Notation "x <- c1 ;; c2" := (bind c1 (fun x => c2))
  (at level 61, c1 at next level, right associativity) : result_scope.
Open Scope result_scope.

Fixpoint mapM {A B : Type} (f : A -> result B) (l : list A) : result (list B) :=
  match l with
  | [] => Ok []
  | a :: l' => b <- f a ;; bs <- mapM f l' ;; Ok (b :: bs)
  end.

(** Nullable values: equality of two nullable strings as [Series.isin],
    [unique] and the hash tables of pandas see it (None matches None). *)
Definition ostring_eqb (a b : option string) : bool :=
  match a, b with
  | Some x, Some y => String.eqb x y
  | None, None => true
  | _, _ => false
  end.

(** Drop the missing entries of a column. *)
Fixpoint dropna {A : Type} (l : list (option A)) : list A :=
  match l with
  | [] => []
  | Some a :: l' => a :: dropna l'
  | None :: l' => dropna l'
  end.

(** ** The extraction query *)

Module Sql.

(** Three-valued logic: [None] is UNKNOWN. *)
Definition tv := option bool.

Definition sql_eq (a b : option Z) : tv :=
  match a, b with
  | Some x, Some y => Some (x =? y)
  | _, _ => None
  end.

Definition sql_ge (a b : option Z) : tv :=
  match a, b with
  | Some x, Some y => Some (y <=? x)
  | _, _ => None
  end.

Definition sql_and (p q : tv) : tv :=
  match p, q with
  | Some false, _ | _, Some false => Some false
  | Some true, Some true => Some true
  | _, _ => None
  end.

(** A row is kept by ON and WHERE only when the condition is TRUE. *)
Definition is_true (p : tv) : bool :=
  match p with Some true => true | _ => false end.

(** [a + b], NULL when an operand is.  The sum is the exact one: the
    overflow error of the column's integer type (the schema is not in the
    repository) is not modelled. *)
Definition sql_add (a b : option Z) : option Z :=
  match a, b with
  | Some x, Some y => Some (x + y)
  | _, _ => None
  end.

(** A quantity that fits every SQL integer type with room for one
    addition: NULL, or between 0 and 127. *)
Definition small_quantity (q : option Z) : Prop :=
  match q with
  | Some x => 0 <= x <= 127
  | None => True
  end.

(** The tables, with the columns the query reads; every column is
    nullable. *)
Record bkmain := {
  guest_clmain : option Z;
  id_bkunit : option Z;
  booking_reference : option string;
  booking_status : option string;
  arrival_minute : option Z;
  departure_minute : option Z;
  creation_minute : option Z;
  adult_category_1_quantity : option Z;
  adult_category_2_quantity : option Z;
  child_category_1_quantity : option Z;
  child_category_2_quantity : option Z
}.

Record clmain := {
  client_clmain : option Z;
  client_nationality : option string;
  c_record_marked_deleted : option Z
}.

Record bkunit := {
  booking_unit_bkunit : option Z;
  unit_type_bkunittp : option Z;
  unit_name : option string
}.

Record bkunittp := {
  id_bkunittp : option Z;
  location_department_bkunittp : option Z;
  unit_type_description : option string
}.

Record spdept := {
  department_spdept : option Z;
  department_description : option string;
  department_code : option string;
  d_record_marked_deleted : option Z
}.

Record Database := {
  tbl_bkmain : list bkmain;
  tbl_clmain : list clmain;
  tbl_bkunit : list bkunit;
  tbl_bkunittp : list bkunittp;
  tbl_spdept : list spdept
}.

(** A column of a table that an outer join may have filled with NULLs. *)
Definition col {T V : Type} (f : T -> option V) (t : option T) : option V :=
  match t with
  | Some r => f r
  | None => None
  end.

Definition inner_join {L R : Type} (on : L -> R -> tv)
    (ls : list L) (rs : list R) : list (L * R) :=
  flat_map (fun l => map (fun r => (l, r)) (filter (fun r => is_true (on l r)) rs)) ls.

Definition left_join {L R : Type} (on : L -> R -> tv)
    (ls : list L) (rs : list R) : list (L * option R) :=
  flat_map (fun l =>
              match filter (fun r => is_true (on l r)) rs with
              | [] => [(l, None)]
              | ms => map (fun r => (l, Some r)) ms
              end) ls.

(** [datetime]: days since 1900-01-01 and ticks of 1/300 s since
    midnight; its range is 1753-01-01 to 9999-12-31. *)
Record datetime := { dt_days : Z; dt_ticks : Z }.

Definition TICKS_PER_MINUTE : Z := 60 * 300.
Definition TICKS_PER_DAY : Z := 1440 * TICKS_PER_MINUTE.
Definition BASE_1900 : Date := ymd2ord 1900 1 1.
Definition DATETIME_MIN : Date := ymd2ord 1753 1 1.
Definition DATETIME_MAX : Date := ymd2ord 9999 12 31.
Definition INT_MIN : Z := - 2 ^ 31.
Definition INT_MAX : Z := 2 ^ 31 - 1.

(** A date literal read as a [datetime] (midnight). *)
Definition datetime_of_literal (s : string) : option datetime :=
  match parse_date s with
  | Some d =>
      if (DATETIME_MIN <=? d) && (d <=? DATETIME_MAX)
      then Some {| dt_days := d - BASE_1900; dt_ticks := 0 |}
      else None
  | None => None
  end.

(** [DATEADD(minute, number, date)]. *)
Definition DATEADD_minute (number : Z) (date : datetime) : result datetime :=
  if (number <? INT_MIN) || (INT_MAX <? number) then Raise ArithmeticOverflow
  else
    let ticks := dt_ticks date + number * TICKS_PER_MINUTE in
    let days := dt_days date + ticks / TICKS_PER_DAY in
    if (DATETIME_MIN <=? BASE_1900 + days) && (BASE_1900 + days <=? DATETIME_MAX)
    then Ok {| dt_days := days; dt_ticks := ticks mod TICKS_PER_DAY |}
    else Raise DateaddOverflow.

(** [CAST(dt AS DATE)]: the time of day is dropped. *)
Definition CAST_AS_DATE (dt : datetime) : Date := BASE_1900 + dt_days dt.

(** [CAST(DATEADD(minute, m, '1897-01-01') AS DATE)]; NULL for a NULL
    offset. *)
Definition decode_minute (m : option Z) : result (option Date) :=
  match m with
  | None => Ok None
  | Some n =>
      match datetime_of_literal "1897-01-01" with
      | Some epoch => dt <- DATEADD_minute n epoch ;; Ok (Some (CAST_AS_DATE dt))
      | None => Ok None
      end
  end.

(** One row of the result set.  The WHERE clause keeps a row only when
    its decoded arrival date is known and on or after the cut-over date,
    so the arrival column of the result set is never NULL. *)
Record row := {
  Lodge_Name : option string;
  Lodge_Code : option string;
  Booking_Ref : option string;
  Status_Code : option string;
  Arrival_Date : Date;
  Departure_Date : option Date;
  Date_Booked : option Date;
  Total_Adults : option Z;
  Total_Children : option Z;
  Unit_Type : option string;
  Unit_Number : option string;
  Nationality : option string
}.

Definition joined : Type :=
  (((bkmain * clmain) * option bkunit) * option bkunittp) * option spdept.

(** FROM bkmain B INNER JOIN clmain C ... LEFT JOIN bkunit BU ...
    LEFT JOIN bkunittp BUT ... LEFT JOIN spdept D ... *)
Definition from_clause (db : Database) : list joined :=
  let bc :=
    inner_join (fun B C => sql_eq (guest_clmain B) (client_clmain C))
      (tbl_bkmain db) (tbl_clmain db) in
  let bcu :=
    left_join (fun '(B, _) BU => sql_eq (id_bkunit B) (booking_unit_bkunit BU))
      bc (tbl_bkunit db) in
  let bcut :=
    left_join (fun '(_, BU) BUT =>
                 sql_eq (col unit_type_bkunittp BU) (id_bkunittp BUT))
      bcu (tbl_bkunittp db) in
  left_join (fun '(_, BUT) D =>
               sql_eq (col location_department_bkunittp BUT) (department_spdept D))
    bcut (tbl_spdept db).

Definition CUTOVER : option Date := parse_date "2023-01-01".

(** The WHERE clause on one joined row, given its decoded arrival. *)
Definition where_clause (arrival : option Date) (j : joined) : tv :=
  let '((((_, C), _), _), D) := j in
  sql_and (sql_and (sql_ge arrival CUTOVER)
                   (sql_eq (c_record_marked_deleted C) (Some 0)))
          (sql_eq (col d_record_marked_deleted D) (Some 0)).

(** WHERE then SELECT on one joined row: [None] when the row is
    filtered out.  An error in DATEADD aborts the statement. *)
Definition select_row (j : joined) : result (option row) :=
  let '((((B, C), BU), BUT), D) := j in
  arrival <- decode_minute (arrival_minute B) ;;
  match arrival with
  | Some a =>
      if is_true (where_clause arrival j) then
        departure <- decode_minute (departure_minute B) ;;
        booked <- decode_minute (creation_minute B) ;;
        Ok (Some {|
          Lodge_Name := col department_description D;
          Lodge_Code := col department_code D;
          Booking_Ref := booking_reference B;
          Status_Code := booking_status B;
          Arrival_Date := a;
          Departure_Date := departure;
          Date_Booked := booked;
          Total_Adults :=
            sql_add (adult_category_1_quantity B) (adult_category_2_quantity B);
          Total_Children :=
            sql_add (child_category_1_quantity B) (child_category_2_quantity B);
          Unit_Type := col unit_type_description BUT;
          Unit_Number := col unit_name BU;
          Nationality := client_nationality C
        |})
      else Ok None
  | None => Ok None
  end.

Definition query (db : Database) : result (list row) :=
  rows <- mapM select_row (from_clause db) ;; Ok (dropna rows).

End Sql.

(** ** pandas operations used by the script *)

Module Pandas.

(** [Series.unique]: the distinct values in order of first appearance. *)
Fixpoint unique_from {A : Type} (eqb : A -> A -> bool) (seen l : list A) : list A :=
  match l with
  | [] => []
  | x :: l' =>
      if existsb (eqb x) seen then unique_from eqb seen l'
      else x :: unique_from eqb (x :: seen) l'
  end.

Definition unique (l : list (option string)) : list (option string) :=
  unique_from ostring_eqb [] l.

(** [Series.isin]. *)
Definition isin (x : option string) (values : list (option string)) : bool :=
  existsb (ostring_eqb x) values.

(** [Series.nunique] (missing values are not counted). *)
Definition nunique (l : list (option string)) : nat :=
  List.length (dropna (unique l)).

Definition count_occ_str (k : string) (l : list (option string)) : nat :=
  List.length (filter (ostring_eqb (Some k)) l).

(** Insertion sort, stable. *)
Fixpoint insert_by {A : Type} (le : A -> A -> bool) (x : A) (l : list A) : list A :=
  match l with
  | [] => [x]
  | y :: l' => if le x y then x :: l else y :: insert_by le x l'
  end.

Fixpoint sort_by {A : Type} (le : A -> A -> bool) (l : list A) : list A :=
  match l with
  | [] => []
  | x :: l' => insert_by le x (sort_by le l')
  end.

(** [Series.value_counts]: one entry per distinct non-missing value,
    most frequent first (pandas leaves the order among equal counts
    unspecified; here it is the order of first appearance). *)
Definition value_counts (l : list (option string)) : list (string * nat) :=
  sort_by (fun a b => Nat.leb (snd b) (snd a))
    (map (fun k => (k, count_occ_str k l)) (dropna (unique l))).

(** [Series.mode]: the most frequent non-missing values, sorted. *)
Definition mode (l : list (option string)) : list string :=
  let counts := map (fun k => (k, count_occ_str k l)) (dropna (unique l)) in
  let top := fold_right Nat.max O (map snd counts) in
  sort_by String.leb
    (map fst (filter (fun kc => Nat.eqb (snd kc) top) counts)).

(** [s[0]] on the result of [mode], whose index is 0, 1, ... *)
Definition getitem0 (s : list string) : result string :=
  match s with
  | [] => Raise KeyError
  | x :: _ => Ok x
  end.

(** A float: NaN or a rational. *)
Inductive pyfloat : Type :=
| NaN
| Float (q : Q).

(** [Series.mean] and [Series.sum] skip missing values. *)
Definition mean (l : list (option Z)) : pyfloat :=
  match dropna l with
  | [] => NaN
  | xs => Float (fold_right Z.add 0 xs # Pos.of_nat (List.length xs))
  end.

Definition sum (l : list (option Z)) : Z := fold_right Z.add 0 (dropna l).

(** The dtype of a column of dates: [object] as [read_sql] delivers a
    SQL DATE column, [datetime64] once [pd.to_datetime] has converted it. *)
Inductive dtype : Type :=
| object
| datetime64.

(** [(left - right).dt.days] for a right column of dtype datetime64.
    pandas decides on the dtypes alone: from an object column the
    subtraction is refused (TypeError: cannot subtract DatetimeArray from
    ndarray), whatever the values and also when both columns are empty;
    from a datetime64 column it gives the differences in days, missing
    where the left date is. *)
Definition sub_datetime64_days (left_dtype : dtype)
    (left : list (option Date)) (right : list Date) : result (list (option Z)) :=
  match left_dtype with
  | object => Raise TypeError
  | datetime64 =>
      Ok (map (fun lr => match fst lr with
                         | Some d => Some (d - snd lr)
                         | None => None
                         end) (combine left right))
  end.

(** [Series.min] and [Series.max] of a date column; NaT when empty. *)
Definition min (l : list Date) : option Date :=
  match l with
  | [] => None
  | d :: l' => Some (fold_right Z.min d l')
  end.

Definition max (l : list Date) : option Date :=
  match l with
  | [] => None
  | d :: l' => Some (fold_right Z.max d l')
  end.

(** The days representable as a midnight [datetime64[ns]] timestamp:
    1677-09-22 to 2262-04-11. *)
Definition TIMESTAMP_MIN : Date := ymd2ord 1677 9 22.
Definition TIMESTAMP_MAX : Date := ymd2ord 2262 4 11.

Definition to_datetime1 (d : Date) : result Date :=
  if (TIMESTAMP_MIN <=? d) && (d <=? TIMESTAMP_MAX) then Ok d
  else Raise OutOfBoundsDatetime.

Definition to_datetime_opt (d : option Date) : result (option Date) :=
  match d with
  | None => Ok None
  | Some x => y <- to_datetime1 x ;; Ok (Some y)
  end.

End Pandas.

(** ** The script *)

(** A row of the DataFrame [df]: the columns of the result set and the
    derived column [Total Guests]. *)
Record Row := {
  Lodge_Name : option string;
  Lodge_Code : option string;
  Booking_Ref : option string;
  Status_Code : option string;
  Arrival_Date : Date;
  Departure_Date : option Date;
  Date_Booked : option Date;
  Total_Adults : option Z;
  Total_Children : option Z;
  Unit_Type : option string;
  Unit_Number : option string;
  Nationality : option string;
  Total_Guests : option Z
}.

Definition DataFrame := list Row.

(** *** 2. Database connection and data fetching *)

(** What [load_data] acts on: the server, and the connections this
    process holds open. *)
Record World := {
  reachable : bool;
  database : Sql.Database;
  open_conns : list nat;
  next_handle : nat
}.

(** [pyodbc.connect]. *)
Definition connect (w : World) : result nat * World :=
  if reachable w then
    (Ok (next_handle w),
     {| reachable := reachable w; database := database w;
        open_conns := next_handle w :: open_conns w;
        next_handle := S (next_handle w) |})
  else (Raise ConnectionError, w).

(** [Connection.close]; the script never calls it. *)
Definition close (conn : nat) (w : World) : World :=
  {| reachable := reachable w; database := database w;
     open_conns := filter (fun h => negb (Nat.eqb h conn)) (open_conns w);
     next_handle := next_handle w |}.

(** The deallocation of a [Connection] object: pyodbc closes the
    connection when the object is freed. *)
Definition dealloc (conn : nat) (w : World) : World := close conn w.

(** [pd.read_sql(query, conn)]. *)
Definition read_sql (conn : nat) (w : World) : result (list Sql.row) :=
  Sql.query (database w).

(** The statements of [load_data] after [read_sql]: the two
    [pd.to_datetime] conversions and the [Total Guests] column.  The sum
    is the exact one: the int64 wrap-around of pandas is out of reach of
    guest counts and is not modelled. *)
Definition derive_row (r : Sql.row) : result Row :=
  arrival <- Pandas.to_datetime1 (Sql.Arrival_Date r) ;;
  booked <- Pandas.to_datetime_opt (Sql.Date_Booked r) ;;
  Ok {|
    Lodge_Name := Sql.Lodge_Name r;
    Lodge_Code := Sql.Lodge_Code r;
    Booking_Ref := Sql.Booking_Ref r;
    Status_Code := Sql.Status_Code r;
    Arrival_Date := arrival;
    Departure_Date := Sql.Departure_Date r;
    Date_Booked := booked;
    Total_Adults := Sql.Total_Adults r;
    Total_Children := Sql.Total_Children r;
    Unit_Type := Sql.Unit_Type r;
    Unit_Number := Sql.Unit_Number r;
    Nationality := Sql.Nationality r;
    Total_Guests := Sql.sql_add (Sql.Total_Adults r) (Sql.Total_Children r)
  |}.

Definition derive (rows : list Sql.row) : result DataFrame := mapM derive_row rows.

(** The dtypes of the date columns of the frame [load_data] returns:
    lines 60-61 convert 'Arrival Date' and 'Date Booked'; 'Departure Date'
    keeps the dtype [read_sql] gave it. *)
Definition Arrival_Date_dtype : Pandas.dtype := Pandas.datetime64.
Definition Date_Booked_dtype : Pandas.dtype := Pandas.datetime64.
Definition Departure_Date_dtype : Pandas.dtype := Pandas.object.

(** [load_data] has no [close], [with] or [finally].  On [return] its
    frame dies and the local [conn] with it, which closes the connection;
    when a statement raises, the traceback of the exception keeps the
    frame, so the connection is still open when the exception leaves
    [load_data]. *)
Definition load_data (w : World) : result DataFrame * World :=
  match connect w with
  | (Ok conn, w1) =>
      match read_sql conn w1 with
      | Ok rows =>
          match derive rows with
          | Ok df => (Ok df, dealloc conn w1)
          | Raise e => (Raise e, w1)
          end
      | Raise e => (Raise e, w1)
      end
  | (Raise e, w1) => (Raise e, w1)
  end.

(** *** 3. Sidebar filters *)

Record Selection := {
  start_date : Date;
  end_date : Date;
  selected_lodges : list (option string);
  selected_status : list (option string)
}.

Definition min_date (df : DataFrame) : option Date := Pandas.min (map Arrival_Date df).
Definition max_date (df : DataFrame) : option Date := Pandas.max (map Arrival_Date df).
Definition lodge_list (df : DataFrame) : list (option string) :=
  Pandas.unique (map Lodge_Name df).
Definition status_list (df : DataFrame) : list (option string) :=
  Pandas.unique (map Status_Code df).

(** The selection the widgets hold before the user touches them; the
    date widget has no default when the arrival column is empty (NaT). *)
Definition default_selection (df : DataFrame) : option Selection :=
  match min_date df, max_date df with
  | Some lo, Some hi =>
      Some {| start_date := lo; end_date := hi;
              selected_lodges := lodge_list df;
              selected_status := status_list df |}
  | _, _ => None
  end.

(** *** 4. Filtering the DataFrame *)

Definition mask (s : Selection) (r : Row) : bool :=
  (start_date s <=? Arrival_Date r)
  && (Arrival_Date r <=? end_date s)
  && Pandas.isin (Lodge_Name r) (selected_lodges s)
  && Pandas.isin (Status_Code r) (selected_status s).

Definition filtered_df (df : DataFrame) (s : Selection) : DataFrame :=
  filter (mask s) df.

(** *** 5. Dashboard: KPIs and charts *)

Definition total_bookings (f : DataFrame) : nat :=
  Pandas.nunique (map Booking_Ref f).

Definition total_guests (f : DataFrame) : Z :=
  Pandas.sum (map Total_Guests f).

(** [(filtered_df['Departure Date'] - filtered_df['Arrival Date'])
    .dt.days.mean()]: the left column has the dtype [load_data] left it
    with. *)
Definition avg_stay (f : DataFrame) : result Pandas.pyfloat :=
  days <- Pandas.sub_datetime64_days Departure_Date_dtype
            (map Departure_Date f) (map Arrival_Date f) ;;
  Ok (Pandas.mean days).

Definition top_nat (f : DataFrame) : result string :=
  match f with
  | [] => Ok "N/A"%string
  | _ => Pandas.getitem0 (Pandas.mode (map Nationality f))
  end.

Definition lodge_counts (f : DataFrame) : list (string * nat) :=
  Pandas.value_counts (map Lodge_Name f).

Definition nat_counts (f : DataFrame) : list (string * nat) :=
  firstn 10 (Pandas.value_counts (map Nationality f)).

Definition Month (r : Row) : string := period_M_str (Arrival_Date r).

(** [groupby('Month')['Booking Ref'].count()]: the groups in sorted key
    order, each with the number of its rows whose booking reference is
    not missing. *)
Definition group_keys (f : DataFrame) : list string :=
  Pandas.sort_by String.leb (Pandas.unique_from String.eqb [] (map Month f)).

Definition group_count (f : DataFrame) (k : string) : nat :=
  List.length (dropna (map Booking_Ref (filter (fun r => String.eqb (Month r) k) f))).

(** The rows that [group_count] counts under key [k]: those arriving in
    month [k] whose booking reference is not missing. *)
Definition counted_in (k : string) (r : Row) : bool :=
  String.eqb (Month r) k
  && match Booking_Ref r with Some _ => true | None => false end.

Definition trend_data (f : DataFrame) : list (string * nat) :=
  map (fun k => (k, group_count f k)) (group_keys f).

Record Summary := {
  s_total_bookings : nat;
  s_total_guests : Z;
  s_avg_stay : Pandas.pyfloat;
  s_top_nat : string;
  s_lodge_counts : list (string * nat);
  s_nat_counts : list (string * nat);
  s_trend_data : list (string * nat)
}.

(** Section 5 of the script, top to bottom, as the function the
    specification calls [summarize]; the statements that can raise are
    those computing [avg_stay] and [top_nat], and nothing after one of
    them runs when it does. *)
Definition summarize (f : DataFrame) : result Summary :=
  let tb := total_bookings f in
  let tg := total_guests f in
  av <- avg_stay f ;;
  top <- top_nat f ;;
  Ok {| s_total_bookings := tb; s_total_guests := tg; s_avg_stay := av;
        s_top_nat := top; s_lodge_counts := lodge_counts f;
        s_nat_counts := nat_counts f; s_trend_data := trend_data f |}.

(** ** The specification's own wording

    Definitions that follow the sentences of the specification, for
    comparison with the definitions above. *)

Module Spec.

Definition MINUTES_PER_DAY : Z := 24 * 60.

(** The instant [d]T00:00, in minutes, on the time line of ordinals. *)
Definition midnight (d : Date) : Z := d * MINUTES_PER_DAY.

(** Truncation of an instant to date granularity. *)
Definition truncate_to_date (t : Z) : Date := t / MINUTES_PER_DAY.

Definition EPOCH : Date := ymd2ord 1897 1 1.

(** "adding the minute offset to that epoch and truncating to date
    granularity". *)
Definition decode (m : Z) : Date := truncate_to_date (midnight EPOCH + m).


(** "count of bookings whose arrival falls in that month", a booking
    being identified by its reference. *)
Definition bookings_in_month (f : DataFrame) (k : string) : nat :=
  Pandas.nunique (map Booking_Ref (filter (fun r => String.eqb (Month r) k) f)).

(** The summary of section 8 for an empty filtered frame, "not
    available" being NaN for the mean and "N/A" for the mode. *)
Definition empty_summary : Summary :=
  {| s_total_bookings := 0; s_total_guests := 0;
     s_avg_stay := Pandas.NaN; s_top_nat := "N/A"%string;
     s_lodge_counts := []; s_nat_counts := []; s_trend_data := [] |}.

(** "connection released on every exit path": no connection that was
    not open before the call is open after it. *)
Definition released (before after : World) : Prop :=
  forall h, In h (open_conns after) -> In h (open_conns before).

(** The row filter of the specification on a booking, its guest and
    the department its unit belongs to, if it has one. *)
Definition passes_row_filters (B : Sql.bkmain) (C : Sql.clmain)
    (D : option Sql.spdept) : bool :=
  match Sql.arrival_minute B with
  | Some m => ymd2ord 2023 1 1 <=? decode m
  | None => false
  end
  && Sql.is_true (Sql.sql_eq (Sql.c_record_marked_deleted C) (Some 0))
  && match D with
     | Some d => Sql.is_true (Sql.sql_eq (Sql.d_record_marked_deleted d) (Some 0))
     | None => true
     end.

End Spec.

(** ** Sample data *)

Module Sample.
Local Open Scope string_scope.

(** A booking arriving 2023-06-15 for guest 7, on unit [unit]. *)
Definition booking (unit : option Z) (arrival : Z) : Sql.bkmain :=
  {| Sql.guest_clmain := Some 7; Sql.id_bkunit := unit;
     Sql.booking_reference := Some "B1"; Sql.booking_status := Some "C";
     Sql.arrival_minute := Some arrival;
     Sql.departure_minute := Some (arrival + 2 * 1440);
     Sql.creation_minute := Some (arrival - 30 * 1440);
     Sql.adult_category_1_quantity := Some 2;
     Sql.adult_category_2_quantity := Some 1;
     Sql.child_category_1_quantity := Some 0;
     Sql.child_category_2_quantity := Some 1 |}.

Definition guest : Sql.clmain :=
  {| Sql.client_clmain := Some 7; Sql.client_nationality := Some "NA";
     Sql.c_record_marked_deleted := Some 0 |}.

Definition unit3 : Sql.bkunit :=
  {| Sql.booking_unit_bkunit := Some 3; Sql.unit_type_bkunittp := Some 5;
     Sql.unit_name := Some "12A" |}.

Definition chalet : Sql.bkunittp :=
  {| Sql.id_bkunittp := Some 5; Sql.location_department_bkunittp := Some 9;
     Sql.unit_type_description := Some "Chalet" |}.

Definition sesriem : Sql.spdept :=
  {| Sql.department_spdept := Some 9;
     Sql.department_description := Some "Sesriem";
     Sql.department_code := Some "SES";
     Sql.d_record_marked_deleted := Some 0 |}.

Definition db_of (b : Sql.bkmain) : Sql.Database :=
  {| Sql.tbl_bkmain := [b]; Sql.tbl_clmain := [guest];
     Sql.tbl_bkunit := [unit3]; Sql.tbl_bkunittp := [chalet];
     Sql.tbl_spdept := [sesriem] |}.

(** 2023-06-15T00:00 as a minute offset from 1897-01-01T00:00. *)
Definition m_2023_06_15 : Z := 66506400.

Definition booking_with_unit : Sql.bkmain := booking (Some 3) m_2023_06_15.
Definition booking_without_unit : Sql.bkmain := booking None m_2023_06_15.
(** An arrival in year 1700, before the first [datetime]. *)
Definition booking_1700 : Sql.bkmain :=
  booking (Some 3) ((ymd2ord 1700 1 1 - ymd2ord 1897 1 1) * 1440).
(** An arrival in year 2300, beyond the last nanosecond timestamp. *)
Definition booking_2300 : Sql.bkmain :=
  booking (Some 3) ((ymd2ord 2300 1 1 - ymd2ord 1897 1 1) * 1440).

Definition world_of (b : Sql.bkmain) : World :=
  {| reachable := true; database := db_of b; open_conns := []; next_handle := O |}.

(** Two bookings, arriving 2023-03-05 and 2023-01-10, stored in that
    order. *)
Definition m_2023_03_05 : Z := (ymd2ord 2023 3 5 - ymd2ord 1897 1 1) * 1440.
Definition m_2023_01_10 : Z := (ymd2ord 2023 1 10 - ymd2ord 1897 1 1) * 1440.

Definition world_march_january : World :=
  {| reachable := true;
     database :=
       {| Sql.tbl_bkmain := [booking (Some 3) m_2023_03_05;
                             booking (Some 3) m_2023_01_10];
          Sql.tbl_clmain := [guest]; Sql.tbl_bkunit := [unit3];
          Sql.tbl_bkunittp := [chalet]; Sql.tbl_spdept := [sesriem] |};
     open_conns := []; next_handle := O |}.

Definition loaded_march_january : DataFrame :=
  match fst (load_data world_march_january) with
  | Ok df => df
  | Raise _ => []
  end.

Definition sel_first_quarter : Selection :=
  {| start_date := ymd2ord 2023 1 1; end_date := ymd2ord 2023 3 31;
     selected_lodges := [Some "Sesriem"]; selected_status := [Some "C"] |}.

(** The frame [load_data] returns in the world of [booking_with_unit]. *)
Definition loaded : DataFrame :=
  match fst (load_data (world_of booking_with_unit)) with
  | Ok df => df
  | Raise _ => []
  end.

Definition mk_row (ref status lodge unit nationality : option string)
    (arrival : Date) (departure : option Date) : Row :=
  {| Lodge_Name := lodge; Lodge_Code := None; Booking_Ref := ref;
     Status_Code := status; Arrival_Date := arrival;
     Departure_Date := departure; Date_Booked := None;
     Total_Adults := Some 2; Total_Children := Some 0;
     Unit_Type := None; Unit_Number := unit;
     Nationality := nationality; Total_Guests := Some 2 |}.

Definition d_2023_01_10 : Date := ymd2ord 2023 1 10.
Definition d_2023_03_05 : Date := ymd2ord 2023 3 5.
Definition d_2023_06_15 : Date := ymd2ord 2023 6 15.
Definition d_2023_06_17 : Date := ymd2ord 2023 6 17.

(** Booking B1 on two units, same status and dates. *)
Definition b1_unit1 : Row :=
  mk_row (Some "B1") (Some "C") (Some "Sesriem") (Some "12A") (Some "NA")
    d_2023_06_15 (Some d_2023_06_17).
Definition b1_unit2 : Row :=
  mk_row (Some "B1") (Some "C") (Some "Sesriem") (Some "12B") (Some "NA")
    d_2023_06_15 (Some d_2023_06_17).
Definition two_units : DataFrame := [b1_unit1; b1_unit2].

(** A booking whose guest has no recorded nationality. *)
Definition no_nationality : Row :=
  mk_row (Some "B2") (Some "C") (Some "Okaukuejo") (Some "7") None
    d_2023_06_15 (Some d_2023_06_17).

(** Arrivals in March, then in January. *)
Definition march : Row :=
  mk_row (Some "B3") (Some "C") (Some "Sesriem") (Some "3") (Some "DE")
    d_2023_03_05 None.
Definition january : Row :=
  mk_row (Some "B4") (Some "C") (Some "Sesriem") (Some "4") (Some "DE")
    d_2023_01_10 None.
Definition march_january : DataFrame := [march; january].

Definition sel_june : Selection :=
  {| start_date := ymd2ord 2023 6 1; end_date := d_2023_06_15;
     selected_lodges := [Some "Sesriem"]; selected_status := [Some "C"] |}.

End Sample.

(* ===================================================================== *)
(** * Part II: properties *)
(* ===================================================================== *)

(** ** Nullable strings, membership and duplicates *)

Lemma ostring_eqb_eq (a b : option string) : ostring_eqb a b = true <-> a = b.
Proof.
  destruct a as [x|], b as [y|]; simpl; split; intro H;
    try discriminate; try reflexivity.
  - apply String.eqb_eq in H. now subst.
  - injection H as ->. apply String.eqb_refl.
Qed.

Lemma existsb_eqb_In {A : Type} (eqb : A -> A -> bool)
    (eqb_eq : forall a b, eqb a b = true <-> a = b) (x : A) (l : list A) :
  existsb (eqb x) l = true <-> In x l.
Proof.
  rewrite existsb_exists. split.
  - intros [y [Hy He]]. apply eqb_eq in He. now subst.
  - intros H. exists x. split; [assumption | now apply eqb_eq].
Qed.

Lemma isin_In (x : option string) (values : list (option string)) :
  Pandas.isin x values = true <-> In x values.
Proof. apply existsb_eqb_In, ostring_eqb_eq. Qed.

Section Unique.
Context {A : Type} (eqb : A -> A -> bool).
Hypothesis eqb_eq : forall a b, eqb a b = true <-> a = b.

Lemma unique_from_In (l seen : list A) (x : A) :
  In x (Pandas.unique_from eqb seen l) <-> In x l /\ ~ In x seen.
Proof.
  revert seen. induction l as [|y l IH]; intros seen; simpl.
  - tauto.
  - destruct (existsb (eqb y) seen) eqn:E.
    + apply (existsb_eqb_In eqb eqb_eq) in E. rewrite IH.
      split; [tauto|]. intros [[->|H] Hn]; tauto.
    + assert (Hy : ~ In y seen).
      { intro H. apply (existsb_eqb_In eqb eqb_eq) in H. congruence. }
      simpl. rewrite IH. simpl. split.
      * intros [->|[H Hn]]; tauto.
      * intros [[->|H] Hn]; [tauto|].
        destruct (eqb y x) eqn:Eyx.
        -- apply eqb_eq in Eyx. tauto.
        -- right. split; [assumption|]. intros [->|H']; [|tauto].
           assert (eqb x x = true) by now apply eqb_eq. congruence.
Qed.

Lemma unique_from_NoDup (l seen : list A) :
  NoDup (Pandas.unique_from eqb seen l).
Proof.
  revert seen. induction l as [|y l IH]; intros seen; simpl.
  - constructor.
  - destruct (existsb (eqb y) seen); [apply IH|].
    constructor; [|apply IH].
    rewrite unique_from_In. simpl. tauto.
Qed.
End Unique.

Lemma unique_In (l : list (option string)) (x : option string) :
  In x (Pandas.unique l) <-> In x l.
Proof.
  unfold Pandas.unique. rewrite (unique_from_In _ ostring_eqb_eq). simpl. tauto.
Qed.

Lemma unique_NoDup (l : list (option string)) : NoDup (Pandas.unique l).
Proof. apply (unique_from_NoDup _ ostring_eqb_eq). Qed.

(** ** The filter *)

Lemma mask_spec (s : Selection) (r : Row) :
  mask s r = true <->
  start_date s <= Arrival_Date r <= end_date s
  /\ In (Lodge_Name r) (selected_lodges s)
  /\ In (Status_Code r) (selected_status s).
Proof.
  unfold mask. rewrite !andb_true_iff, !Z.leb_le, !isin_In. tauto.
Qed.

Lemma filter_all {A : Type} (p : A -> bool) (l : list A) :
  (forall x, In x l -> p x = true) -> filter p l = l.
Proof.
  induction l as [|a l IH]; intros H; simpl; [reflexivity|].
  rewrite (H a (or_introl eq_refl)). f_equal. apply IH.
  intros x Hx. apply H. now right.
Qed.

Lemma filter_none {A : Type} (p : A -> bool) (l : list A) :
  (forall x, In x l -> p x = false) -> filter p l = [].
Proof.
  induction l as [|a l IH]; intros H; simpl; [reflexivity|].
  rewrite (H a (or_introl eq_refl)). apply IH.
  intros x Hx. apply H. now right.
Qed.

Lemma filtered_df_nothing_selected (df : DataFrame) (s : Selection) :
  selected_lodges s = [] \/ selected_status s = [] -> filtered_df df s = [].
Proof.
  intros He. apply filter_none. intros r _.
  destruct (mask s r) eqn:E; [|reflexivity].
  apply mask_spec in E. destruct He as [He|He]; rewrite He in E; simpl in E; tauto.
Qed.

(** C1. A record of [df] is in the filtered frame exactly when its
    arrival date lies in [start, end] (both ends included), its lodge name
    is among the selected lodges and its status code among the selected
    status codes; a record arriving on [end] is kept, one arriving the day
    after is dropped, and an empty lodge or status selection leaves
    nothing. *)
Theorem filtered_df_spec (df : DataFrame) (s : Selection) :
  (forall r, In r (filtered_df df s) <->
             In r df
             /\ start_date s <= Arrival_Date r <= end_date s
             /\ In (Lodge_Name r) (selected_lodges s)
             /\ In (Status_Code r) (selected_status s))
  /\ (forall r, In r df -> Arrival_Date r = end_date s ->
                start_date s <= end_date s ->
                In (Lodge_Name r) (selected_lodges s) ->
                In (Status_Code r) (selected_status s) ->
                In r (filtered_df df s))
  /\ (forall r, Arrival_Date r = end_date s + 1 -> ~ In r (filtered_df df s))
  /\ (selected_lodges s = [] -> filtered_df df s = [])
  /\ (selected_status s = [] -> filtered_df df s = []).
Proof.
  assert (Hiff : forall r, In r (filtered_df df s) <->
             In r df
             /\ start_date s <= Arrival_Date r <= end_date s
             /\ In (Lodge_Name r) (selected_lodges s)
             /\ In (Status_Code r) (selected_status s)).
  { intro r. unfold filtered_df. rewrite filter_In, mask_spec. tauto. }
  split; [exact Hiff|]. split; [|split; [|split]].
  - intros r Hin Harr Hle Hl Hs. apply Hiff. repeat split; try assumption; lia.
  - intros r Harr Hin. apply Hiff in Hin. lia.
  - intros He. apply filtered_df_nothing_selected. now left.
  - intros He. apply filtered_df_nothing_selected. now right.
Qed.

(** ** The default selection *)

Lemma fold_min_le (l : list Z) (d x : Z) :
  In x (d :: l) -> fold_right Z.min d l <= x.
Proof.
  induction l as [|y l IH]; simpl.
  - intros [->|[]]. lia.
  - intros [->|[->|H]].
    + assert (fold_right Z.min x l <= x) by (apply IH; now left). lia.
    + lia.
    + assert (fold_right Z.min d l <= x) by (apply IH; now right). lia.
Qed.

Lemma fold_max_ge (l : list Z) (d x : Z) :
  In x (d :: l) -> x <= fold_right Z.max d l.
Proof.
  induction l as [|y l IH]; simpl.
  - intros [->|[]]. lia.
  - intros [->|[->|H]].
    + assert (x <= fold_right Z.max x l) by (apply IH; now left). lia.
    + lia.
    + assert (x <= fold_right Z.max d l) by (apply IH; now right). lia.
Qed.

(** C10. With the selection the widgets start from (the full range of
    arrival dates of [df], all its lodge names, all its status codes) the
    filter returns [df] itself; the one frame for which the widgets have
    no such selection is the empty one, which every selection returns
    unchanged. *)
Theorem default_selection_identity (df : DataFrame) :
  match default_selection df with
  | Some s => filtered_df df s = df
  | None => df = [] /\ forall s, filtered_df df s = df
  end.
Proof.
  destruct df as [|r0 df]; [split; reflexivity|].
  set (D := r0 :: df).
  change (default_selection D) with
    (Some {| start_date := fold_right Z.min (Arrival_Date r0) (map Arrival_Date df);
             end_date := fold_right Z.max (Arrival_Date r0) (map Arrival_Date df);
             selected_lodges := lodge_list D;
             selected_status := status_list D |}).
  apply filter_all. intros r Hr.
  apply mask_spec. cbn [start_date end_date selected_lodges selected_status].
  repeat split.
  - apply fold_min_le. change (In (Arrival_Date r) (map Arrival_Date D)).
    now apply in_map.
  - apply fold_max_ge. change (In (Arrival_Date r) (map Arrival_Date D)).
    now apply in_map.
  - unfold lodge_list. apply unique_In. now apply (in_map Lodge_Name) in Hr.
  - unfold status_list. apply unique_In. now apply (in_map Status_Code) in Hr.
Qed.

(** Witness of C1 on the sample frame: the row arriving on the last
    selected day is kept. *)
Lemma filtered_df_spec_witness :
  In Sample.b1_unit1 (filtered_df Sample.two_units Sample.sel_june).
Proof.
  apply (proj1 (proj2 (filtered_df_spec Sample.two_units Sample.sel_june))).
  - simpl. now left.
  - reflexivity.
  - vm_compute. discriminate.
  - simpl. now left.
  - simpl. now left.
Defined.

(** ** The KPIs *)

Lemma dropna_In {A : Type} (l : list (option A)) (a : A) :
  In a (dropna l) <-> In (Some a) l.
Proof.
  induction l as [|[x|] l IH]; simpl.
  - tauto.
  - rewrite IH. split; intros [H|H]; auto; left; congruence.
  - rewrite IH. split; [auto|]. intros [H|H]; [discriminate|assumption].
Qed.

Lemma dropna_NoDup {A : Type} (l : list (option A)) :
  NoDup l -> NoDup (dropna l).
Proof.
  induction 1 as [|[x|] l Hn Hnd IH]; simpl.
  - constructor.
  - constructor; [|assumption]. now rewrite dropna_In.
  - assumption.
Qed.

(** C3. [total_bookings] is the number of distinct booking references
    of the frame, not its number of rows: it is the length of any
    duplicate-free enumeration of the references that occur, and a booking
    held by two rows counts once. *)
Theorem total_bookings_distinct (f : DataFrame) :
  (exists refs : list string,
      NoDup refs
      /\ (forall b, In b refs <-> exists r, In r f /\ Booking_Ref r = Some b)
      /\ total_bookings f = List.length refs)
  /\ (forall refs : list string,
         NoDup refs ->
         (forall b, In b refs <-> exists r, In r f /\ Booking_Ref r = Some b) ->
         total_bookings f = List.length refs)
  /\ (forall (r1 r2 : Row) (b : string),
         Booking_Ref r1 = Some b -> Booking_Ref r2 = Some b ->
         total_bookings [r1; r2] = 1%nat /\ List.length [r1; r2] = 2%nat).
Proof.
  set (us := dropna (Pandas.unique (map Booking_Ref f))).
  assert (Hnd : NoDup us) by apply dropna_NoDup, unique_NoDup.
  assert (Hin : forall b, In b us <-> exists r, In r f /\ Booking_Ref r = Some b).
  { intro b. unfold us. rewrite dropna_In, unique_In, in_map_iff.
    split; intros [r [H1 H2]]; exists r; tauto. }
  split; [|split].
  - exists us. repeat split; try assumption; apply Hin.
  - intros refs Hnd' Hin'. change (total_bookings f) with (List.length us).
    apply Permutation_length, NoDup_Permutation; try assumption.
    intro b. rewrite Hin, Hin'. tauto.
  - intros r1 r2 b H1 H2. split; [|reflexivity].
    unfold total_bookings, Pandas.nunique, Pandas.unique. simpl.
    rewrite H1, H2. simpl. rewrite String.eqb_refl. reflexivity.
Qed.

(** Witness of C3: the sample booking B1, held by two rows. *)
Lemma total_bookings_distinct_witness :
  total_bookings Sample.two_units = 1%nat
  /\ List.length Sample.two_units = 2%nat.
Proof.
  apply (proj2 (proj2 (total_bookings_distinct []))
           Sample.b1_unit1 Sample.b1_unit2 "B1"%string); reflexivity.
Defined.

(** ** The top nationality *)

Lemma mode_all_missing (l : list (option string)) :
  Forall (fun x => x = None) l -> Pandas.mode l = [].
Proof.
  intros H. unfold Pandas.mode.
  assert (E : dropna (Pandas.unique l) = []).
  { destruct (dropna (Pandas.unique l)) as [|k ks] eqn:E; [reflexivity|].
    assert (Hk : In k (dropna (Pandas.unique l))) by (rewrite E; now left).
    rewrite dropna_In, unique_In in Hk. rewrite Forall_forall in H.
    apply H in Hk. discriminate. }
  rewrite E. reflexivity.
Qed.

(** C8 fails on the code: on a non-empty frame whose nationalities are
    all missing, [mode] is empty and reading its entry 0 raises KeyError;
    no summary is produced (in a straight run line 113 has already raised
    TypeError). *)
Theorem summarize_all_missing_nationalities (f : DataFrame) :
  f <> [] ->
  Forall (fun r => Nationality r = None) f ->
  top_nat f = Raise KeyError /\ summarize f = Raise TypeError.
Proof.
  intros Hne Hall. split; [|reflexivity].
  destruct f as [|r f']; [congruence|]. unfold top_nat.
  rewrite mode_all_missing; [reflexivity|].
  rewrite Forall_forall in *. intros x Hx. apply in_map_iff in Hx.
  destruct Hx as [r' [<- Hr']]. now apply Hall.
Qed.

(** Witness of C8: the sample row without nationality. *)
Lemma summarize_all_missing_nationalities_witness :
  top_nat [Sample.no_nationality] = Raise KeyError
  /\ summarize [Sample.no_nationality] = Raise TypeError.
Proof.
  apply (summarize_all_missing_nationalities [Sample.no_nationality]).
  - discriminate.
  - repeat constructor.
Defined.

(** ** Sorting *)

Section Sorting.
Context {A : Type} (le : A -> A -> bool).

Lemma insert_by_perm (x : A) (l : list A) :
  Permutation (Pandas.insert_by le x l) (x :: l).
Proof.
  induction l as [|y l IH]; simpl; [reflexivity|].
  destruct (le x y); [reflexivity|].
  rewrite IH. apply perm_swap.
Qed.

Lemma sort_by_perm (l : list A) : Permutation (Pandas.sort_by le l) l.
Proof.
  induction l as [|x l IH]; simpl; [reflexivity|].
  rewrite insert_by_perm. now constructor.
Qed.

Hypothesis le_total : forall a b, le a b = true \/ le b a = true.

Lemma insert_by_sorted (x : A) (l : list A) :
  Sorted (fun a b => le a b = true) l ->
  Sorted (fun a b => le a b = true) (Pandas.insert_by le x l).
Proof.
  induction 1 as [|y l Hs IH Hd]; simpl.
  - repeat constructor.
  - destruct (le x y) eqn:E.
    + constructor; [now constructor | now constructor].
    + constructor; [assumption|].
      assert (Hyx : le y x = true) by (destruct (le_total x y); congruence).
      destruct l as [|z l]; simpl; [now constructor|].
      destruct (le x z); constructor; [assumption|].
      now inversion Hd.
Qed.

Lemma sort_by_sorted (l : list A) :
  Sorted (fun a b => le a b = true) (Pandas.sort_by le l).
Proof.
  induction l as [|x l IH]; simpl; [constructor|].
  now apply insert_by_sorted.
Qed.
End Sorting.

(** ** The calendar *)

Lemma ord2ymd_month_range (d : Date) : 1 <= month_of d <= 12.
Proof.
  unfold month_of, ord2ymd.
  set (n := (((d - 1) mod DI400Y) mod DI100Y) mod DI4Y mod 365).
  assert (Hn : 0 <= n < 365) by (apply Z.mod_pos_bound; lia).
  destruct (_ || _); [simpl; lia|].
  set (leapyear := (_ =? 3) && _). clearbody leapyear.
  rewrite Z.shiftr_div_pow2 by lia. change (2 ^ 5) with 32.
  set (month := (n + 50) / 32).
  assert (Hm : 1 <= month <= 12).
  { unfold month. split.
    - apply Z.div_le_lower_bound; lia.
    - assert ((n + 50) / 32 < 13) by (apply Z.div_lt_upper_bound; lia). lia. }
  assert (Hcases : month = 1 \/ month = 2 \/ month = 3 \/ month = 4 \/ month = 5
                   \/ month = 6 \/ month = 7 \/ month = 8 \/ month = 9
                   \/ month = 10 \/ month = 11 \/ month = 12) by lia.
  clearbody month.
  destruct (n <? _) eqn:E; simpl; [|lia].
  apply Z.ltb_lt in E.
  destruct Hcases as [->|Hc]; [simpl in E; lia|]. lia.
Qed.

(** The years of the dates the query can return: from the cut-over date
    to the last day a [datetime] can hold. *)
Lemma year_of_range (d : Date) :
  ymd2ord 2023 1 1 <= d <= ymd2ord 9999 12 31 -> 2023 <= year_of d <= 9999.
Proof.
  change (ymd2ord 2023 1 1) with 738521. change (ymd2ord 9999 12 31) with 3652059.
  intros Hd. unfold year_of, ord2ymd.
  change DI400Y with 146097. change DI100Y with 36524. change DI4Y with 1461.
  set (n0 := d - 1).
  set (n400 := n0 / 146097). set (r400 := n0 mod 146097).
  set (n100 := r400 / 36524). set (r100 := r400 mod 36524).
  set (n4 := r100 / 1461). set (r4 := r100 mod 1461).
  set (n1 := r4 / 365). set (n := r4 mod 365).
  assert (H400 : n0 = 146097 * n400 + r400 /\ 0 <= r400 < 146097).
  { split; [apply Z.div_mod; lia | apply Z.mod_pos_bound; lia]. }
  assert (H100 : r400 = 36524 * n100 + r100 /\ 0 <= r100 < 36524).
  { split; [apply Z.div_mod; lia | apply Z.mod_pos_bound; lia]. }
  assert (H4 : r100 = 1461 * n4 + r4 /\ 0 <= r4 < 1461).
  { split; [apply Z.div_mod; lia | apply Z.mod_pos_bound; lia]. }
  assert (H1 : r4 = 365 * n1 + n /\ 0 <= n < 365).
  { split; [apply Z.div_mod; lia | apply Z.mod_pos_bound; lia]. }
  assert (Hn0 : n0 = d - 1) by reflexivity.
  clearbody n0 n400 r400 n100 r100 n4 r4 n1 n.
  destruct ((n1 =? 4) || (n100 =? 4)) eqn:E.
  - simpl. apply orb_true_iff in E. rewrite !Z.eqb_eq in E. lia.
  - apply orb_false_iff in E. rewrite !Z.eqb_neq in E.
    destruct (_ <? _); simpl; lia.
Qed.

Lemma month_day_all (leapyear : bool) :
  forallb (month_day_ok leapyear) (seq 0 365) = true.
Proof. destruct leapyear; vm_compute; reflexivity. Qed.

Lemma month_day_spec (n : Z) (leapyear : bool) :
  0 <= n < 365 ->
  let '(m, d) := month_day n leapyear in
  1 <= m <= 12 /\ 1 <= d <= (if (m =? 2) && leapyear then 29 else DAYS_IN_MONTH m)
  /\ DAYS_BEFORE_MONTH m + (if (2 <? m) && leapyear then 1 else 0) + d = n + 1.
Proof.
  intros Hn. pose proof (month_day_all leapyear) as H.
  rewrite forallb_forall in H. specialize (H (Z.to_nat n)).
  unfold month_day_ok in H. rewrite Z2Nat.id in H by lia.
  destruct (month_day n leapyear) as [m d].
  assert (Hin : In (Z.to_nat n) (seq 0 365)) by (apply in_seq; lia).
  apply H in Hin. rewrite !andb_true_iff, !Z.leb_le, Z.eqb_eq in Hin. lia.
Qed.

(** Every ordinal is the ordinal of the calendar date [ord2ymd] reads
    from it, and that date exists. *)
Lemma ord2ymd_ymd2ord (d : Date) :
  let '(y, m, dd) := ord2ymd d in
  valid_ymd y m dd = true /\ ymd2ord y m dd = d.
Proof.
  unfold ord2ymd.
  change DI400Y with 146097. change DI100Y with 36524. change DI4Y with 1461.
  set (n0 := d - 1).
  set (n400 := n0 / 146097). set (r400 := n0 mod 146097).
  set (n100 := r400 / 36524). set (r100 := r400 mod 36524).
  set (n4 := r100 / 1461). set (r4 := r100 mod 1461).
  set (n1 := r4 / 365). set (n := r4 mod 365).
  assert (H400 : n0 = 146097 * n400 + r400 /\ 0 <= r400 < 146097).
  { split; [apply Z.div_mod; lia | apply Z.mod_pos_bound; lia]. }
  assert (H100 : r400 = 36524 * n100 + r100 /\ 0 <= r100 < 36524).
  { split; [apply Z.div_mod; lia | apply Z.mod_pos_bound; lia]. }
  assert (H4 : r100 = 1461 * n4 + r4 /\ 0 <= r4 < 1461).
  { split; [apply Z.div_mod; lia | apply Z.mod_pos_bound; lia]. }
  assert (H1 : r4 = 365 * n1 + n /\ 0 <= n < 365).
  { split; [apply Z.div_mod; lia | apply Z.mod_pos_bound; lia]. }
  assert (Hn0 : n0 = d - 1) by reflexivity.
  clearbody n0 n400 r400 n100 r100 n4 r4 n1 n.
  set (year := n400 * 400 + 1 + n100 * 100 + n4 * 4 + n1).
  assert (Hb : 0 <= n100 <= 4 /\ 0 <= n4 <= 24 /\ 0 <= n1 <= 4) by lia.
  destruct ((n1 =? 4) || (n100 =? 4)) eqn:E.
  - apply orb_true_iff in E. rewrite !Z.eqb_eq in E.
    unfold valid_ymd, ymd2ord, days_in_month, days_before_month, days_before_year, is_leap.
    assert (Hy4 : (year - 1) mod 4 = 0).
    { unfold year. Z.to_euclidean_division_equations; lia. }
    assert (Hy100 : (year - 1) mod 100 = 0 <-> n100 = 4).
    { unfold year. Z.to_euclidean_division_equations; lia. }
    assert (Hy400 : (year - 1) mod 400 = 0 <-> n100 = 4).
    { unfold year. Z.to_euclidean_division_equations; lia. }
    assert (Hleap : (((year - 1) mod 4 =? 0) && (negb ((year - 1) mod 100 =? 0) || ((year - 1) mod 400 =? 0))) = true).
    { rewrite Hy4. simpl. destruct (Z.eq_dec n100 4) as [e|ne].
      - apply Hy400 in e. rewrite e. simpl. apply orb_true_r.
      - destruct ((year - 1) mod 100 =? 0) eqn:E1; [|reflexivity].
        apply Z.eqb_eq in E1. tauto. }
    rewrite Hleap. simpl. split; [reflexivity|].
    unfold year. Z.to_euclidean_division_equations; lia.
  - apply orb_false_iff in E. rewrite !Z.eqb_neq in E.
    set (leapyear := (n1 =? 3) && (negb (n4 =? 24) || (n100 =? 3))).
    assert (Hleap : is_leap year = leapyear).
    { unfold is_leap, leapyear.
      assert (Hy4 : year mod 4 = 0 <-> n1 = 3).
      { unfold year. Z.to_euclidean_division_equations; lia. }
      assert (Hy100 : year mod 100 = 0 <-> n1 = 3 /\ n4 = 24).
      { unfold year. Z.to_euclidean_division_equations; lia. }
      assert (Hy400 : year mod 400 = 0 <-> n1 = 3 /\ n4 = 24 /\ n100 = 3).
      { unfold year. Z.to_euclidean_division_equations; lia. }
      destruct (year mod 4 =? 0) eqn:E4, (year mod 100 =? 0) eqn:E100,
        (year mod 400 =? 0) eqn:E400, (n1 =? 3) eqn:F1, (n4 =? 24) eqn:F4,
        (n100 =? 3) eqn:F100; try reflexivity;
        rewrite ?Z.eqb_eq, ?Z.eqb_neq in *; exfalso; lia. }
    pose proof (month_day_spec n leapyear (proj2 H1)) as Hmd.
    unfold month_day in Hmd. fold leapyear.
    assert (Hdby : days_before_year year = n0 - n).
    { unfold days_before_year, year. Z.to_euclidean_division_equations; lia. }
    clearbody leapyear.
    destruct (n <? _) eqn:En;
      destruct Hmd as (Hm & Hd & Hs);
      match type of Hs with
      | DAYS_BEFORE_MONTH ?m + _ + ?dd = _ =>
          set (month := m) in *; set (day := dd) in *; clearbody month day
      end;
      unfold valid_ymd, ymd2ord, days_in_month, days_before_month;
      rewrite Hleap, Hdby;
      (split; [rewrite !andb_true_iff, !Z.leb_le; lia | lia]).
Qed.

(** ** Month keys and their order *)

Lemma digit_char_compare (a b : Z) :
  0 <= a <= 9 -> 0 <= b <= 9 ->
  Ascii.compare (digit_char a) (digit_char b) = (a ?= b).
Proof.
  intros Ha Hb. unfold Ascii.compare, digit_char.
  rewrite !N_ascii_embedding by lia.
  rewrite <- N2Z.inj_compare, !N2Z.inj_add, !Z2N.id by lia.
  apply Z.add_compare_mono_l.
Qed.

Lemma decimal4 (y : Z) :
  1000 <= y <= 9999 ->
  y = 1000 * (y / 1000) + 100 * (y / 100 mod 10) + 10 * (y / 10 mod 10) + y mod 10
  /\ 0 <= y / 1000 <= 9 /\ 0 <= y / 100 mod 10 <= 9
  /\ 0 <= y / 10 mod 10 <= 9 /\ 0 <= y mod 10 <= 9.
Proof.
  intros Hy.
  pose proof (Z.div_mod y 10 ltac:(lia)) as E1.
  pose proof (Z.div_mod (y / 10) 10 ltac:(lia)) as E2.
  pose proof (Z.div_mod (y / 10 / 10) 10 ltac:(lia)) as E3.
  rewrite !Z.div_div in * by lia. change (10 * 10) with 100 in *.
  change (100 * 10) with 1000 in *.
  pose proof (Z.mod_pos_bound y 10 ltac:(lia)).
  pose proof (Z.mod_pos_bound (y / 10) 10 ltac:(lia)).
  pose proof (Z.mod_pos_bound (y / 100) 10 ltac:(lia)).
  assert (0 <= y / 1000 <= 9).
  { split; [apply Z.div_pos; lia|].
    assert (y / 1000 < 10) by (apply Z.div_lt_upper_bound; lia). lia. }
  assert ((y / 1000) mod 10 = y / 1000) by (apply Z.mod_small; lia).
  lia.
Qed.

Lemma decimal2 (m : Z) :
  1 <= m <= 12 ->
  m = 10 * (m / 10) + m mod 10 /\ 0 <= m / 10 <= 9 /\ 0 <= m mod 10 <= 9.
Proof.
  intros Hm.
  pose proof (Z.div_mod m 10 ltac:(lia)).
  pose proof (Z.mod_pos_bound m 10 ltac:(lia)).
  assert (0 <= m / 10 <= 9).
  { split; [apply Z.div_pos; lia|].
    assert (m / 10 < 10) by (apply Z.div_lt_upper_bound; lia). lia. }
  lia.
Qed.

Lemma str_of_int_4digits (y : Z) :
  1000 <= y <= 9999 ->
  str_of_int y =
  String (digit_char (y / 1000)) (String (digit_char (y / 100 mod 10))
    (String (digit_char (y / 10 mod 10)) (String (digit_char (y mod 10)) EmptyString))).
Proof.
  intros Hy. unfold str_of_int.
  destruct (y <? 0) eqn:E; [apply Z.ltb_lt in E; lia|].
  assert (Hl : 9 <= Z.log2 y).
  { change 9 with (Z.log2 1000). apply Z.log2_le_mono. lia. }
  destruct (Z.to_nat (Z.log2 y)) as [|[|[|k]]] eqn:Ek; try lia.
  destruct (decimal4 y Hy) as (_ & Hd3 & _).
  assert (H1 : (y / 10 =? 0) = false).
  { apply Z.eqb_neq. assert (100 <= y / 10) by (apply Z.div_le_lower_bound; lia). lia. }
  assert (E2 : y / 10 / 10 = y / 100) by (rewrite Z.div_div by lia; reflexivity).
  assert (E3 : y / 100 / 10 = y / 1000) by (rewrite Z.div_div by lia; reflexivity).
  assert (H2 : (y / 100 =? 0) = false).
  { apply Z.eqb_neq. assert (10 <= y / 100) by (apply Z.div_le_lower_bound; lia). lia. }
  assert (H3 : (y / 1000 =? 0) = false).
  { apply Z.eqb_neq. assert (1 <= y / 1000) by (apply Z.div_le_lower_bound; lia). lia. }
  assert (H4 : (y / 1000 / 10 =? 0) = true).
  { apply Z.eqb_eq. apply Z.div_small. lia. }
  assert (H5 : (y / 1000) mod 10 = y / 1000) by (apply Z.mod_small; lia).
  cbn [str_digits]. rewrite H1. rewrite E2, H2, E3, H3, H4, H5. reflexivity.
Qed.

Lemma str_02d_2digits (m : Z) :
  1 <= m <= 12 ->
  str_02d m = String (digit_char (m / 10)) (String (digit_char (m mod 10)) EmptyString).
Proof.
  intros Hm.
  assert (Hc : m = 1 \/ m = 2 \/ m = 3 \/ m = 4 \/ m = 5 \/ m = 6 \/ m = 7
               \/ m = 8 \/ m = 9 \/ m = 10 \/ m = 11 \/ m = 12) by lia.
  repeat (destruct Hc as [->|Hc]; [reflexivity|]). subst. reflexivity.
Qed.

Ltac cmp_digit :=
  match goal with
  | |- match (?a ?= ?b) with _ => _ end = _ =>
      destruct (Z.compare_spec a b)
  end.

Ltac cmp_close :=
  symmetry;
  first [ apply Z.compare_eq_iff; lia
        | apply Z.compare_lt_iff; lia
        | apply Z.compare_gt_iff; lia ].

(** On four-digit years the order of the month keys as strings is the
    order of the months in time. *)
Lemma period_M_str_compare (d1 d2 : Date) :
  four_digit_year d1 -> four_digit_year d2 ->
  String.compare (period_M_str d1) (period_M_str d2)
  = (period_ordinal d1 ?= period_ordinal d2).
Proof.
  unfold four_digit_year, period_ordinal, period_M_str. intros H1 H2.
  pose proof (ord2ymd_month_range d1) as M1.
  pose proof (ord2ymd_month_range d2) as M2.
  rewrite !str_of_int_4digits, !str_02d_2digits by assumption.
  destruct (decimal4 _ H1) as (Ey1 & ? & ? & ? & ?).
  destruct (decimal4 _ H2) as (Ey2 & ? & ? & ? & ?).
  destruct (decimal2 _ M1) as (Em1 & ? & ?).
  destruct (decimal2 _ M2) as (Em2 & ? & ?).
  cbn [String.append String.compare].
  rewrite !digit_char_compare by assumption.
  change (Ascii.compare "-" "-") with Eq. cbv iota.
  generalize dependent (year_of d1 / 1000). generalize dependent (year_of d1 / 100 mod 10).
  generalize dependent (year_of d1 / 10 mod 10). generalize dependent (year_of d1 mod 10).
  generalize dependent (year_of d2 / 1000). generalize dependent (year_of d2 / 100 mod 10).
  generalize dependent (year_of d2 / 10 mod 10). generalize dependent (year_of d2 mod 10).
  generalize dependent (month_of d1 / 10). generalize dependent (month_of d1 mod 10).
  generalize dependent (month_of d2 / 10). generalize dependent (month_of d2 mod 10).
  intros.
  repeat (cmp_digit; try cmp_close).
Qed.

(** ** What the loader guarantees *)

Lemma mapM_Ok {A B : Type} (f : A -> result B) (l : list A) (bs : list B) :
  mapM f l = Ok bs -> Forall2 (fun a b => f a = Ok b) l bs.
Proof.
  revert bs. induction l as [|a l IH]; simpl; intros bs H.
  - injection H as <-. constructor.
  - destruct (f a) as [b|e] eqn:Ea; simpl in H; [|discriminate].
    destruct (mapM f l) as [bs'|e] eqn:El; simpl in H; [|discriminate].
    injection H as <-. constructor; [assumption | now apply IH].
Qed.

Lemma Forall2_In_r {A B : Type} (R : A -> B -> Prop) (l : list A) (bs : list B) (b : B) :
  Forall2 R l bs -> In b bs -> exists a, In a l /\ R a b.
Proof.
  induction 1 as [|a b' l bs Hab HF IH]; simpl; [tauto|].
  intros [<-|H].
  - exists a. auto.
  - destruct (IH H) as [a' [Ha' HR]]. exists a'. auto.
Qed.

Lemma DATEADD_minute_range (n : Z) (dt dt' : Sql.datetime) :
  Sql.DATEADD_minute n dt = Ok dt' ->
  Sql.DATETIME_MIN <= Sql.CAST_AS_DATE dt' <= Sql.DATETIME_MAX.
Proof.
  unfold Sql.DATEADD_minute, Sql.CAST_AS_DATE.
  destruct (_ || _); [discriminate|].
  destruct (_ && _) eqn:E; [|discriminate].
  intros H. injection H as <-. cbn [Sql.dt_days].
  apply andb_true_iff in E. destruct E as [E1 E2].
  apply Z.leb_le in E1. apply Z.leb_le in E2. split; assumption.
Qed.

Lemma decode_minute_range (m : option Z) (d : Date) :
  Sql.decode_minute m = Ok (Some d) -> Sql.DATETIME_MIN <= d <= Sql.DATETIME_MAX.
Proof.
  unfold Sql.decode_minute. destruct m as [n|]; [|discriminate].
  destruct (Sql.datetime_of_literal _) as [epoch|]; [|discriminate].
  destruct (Sql.DATEADD_minute n epoch) as [dt|e] eqn:E; simpl; [|discriminate].
  intros H. injection H as <-. now apply DATEADD_minute_range in E.
Qed.

(** A row leaves the query only with a decoded arrival on or after the
    cut-over date, from a guest record and a department record that both
    exist and are not marked deleted. *)
Lemma select_row_Some (j : Sql.joined) (r : Sql.row) :
  Sql.select_row j = Ok (Some r) ->
  let '((((B, C), BU), BUT), D) := j in
  ymd2ord 2023 1 1 <= Sql.Arrival_Date r <= ymd2ord 9999 12 31
  /\ Sql.decode_minute (Sql.arrival_minute B) = Ok (Some (Sql.Arrival_Date r))
  /\ Sql.c_record_marked_deleted C = Some 0
  /\ exists dept, D = Some dept /\ Sql.d_record_marked_deleted dept = Some 0.
Proof.
  destruct j as [[[[B C] BU] BUT] D]. unfold Sql.select_row.
  destruct (Sql.decode_minute (Sql.arrival_minute B)) as [[a|]|e] eqn:Ea;
    simpl; try discriminate.
  destruct (Sql.is_true _) eqn:Ew; [|discriminate].
  destruct (Sql.decode_minute (Sql.departure_minute B)) as [dep|e];
    simpl; [|discriminate].
  destruct (Sql.decode_minute (Sql.creation_minute B)) as [cre|e];
    simpl; [|discriminate].
  intros H. injection H as <-. simpl.
  apply decode_minute_range in Ea as Hr.
  unfold Sql.where_clause in Ew.
  change Sql.CUTOVER with (Some (ymd2ord 2023 1 1)) in Ew.
  unfold Sql.sql_ge in Ew.
  destruct (ymd2ord 2023 1 1 <=? a) eqn:Ec;
    [apply Z.leb_le in Ec | simpl in Ew; discriminate].
  destruct (Sql.c_record_marked_deleted C) as [c|]; simpl in Ew;
    [|destruct (Sql.sql_eq _ _) as [[|]|]; simpl in Ew; discriminate].
  destruct (c =? 0) eqn:Ec0; [apply Z.eqb_eq in Ec0; subst c|];
    [|destruct (Sql.sql_eq _ _) as [[|]|]; simpl in Ew; discriminate].
  destruct D as [dept|]; simpl in Ew; [|discriminate].
  destruct (Sql.d_record_marked_deleted dept) as [x|] eqn:Ed; simpl in Ew;
    [|discriminate].
  destruct (x =? 0) eqn:Ex; [apply Z.eqb_eq in Ex; subst x | discriminate].
  change Sql.DATETIME_MAX with (ymd2ord 9999 12 31) in Hr.
  repeat split; try lia; try reflexivity. exists dept. now rewrite Ed.
Qed.

Lemma query_rows (db : Sql.Database) (rows : list Sql.row) (r : Sql.row) :
  Sql.query db = Ok rows -> In r rows ->
  exists j, In j (Sql.from_clause db) /\ Sql.select_row j = Ok (Some r).
Proof.
  unfold Sql.query.
  destruct (mapM Sql.select_row (Sql.from_clause db)) as [rs|e] eqn:E;
    simpl; [|discriminate].
  intros H Hin. injection H as <-. apply dropna_In in Hin.
  apply mapM_Ok in E. exact (Forall2_In_r _ _ _ _ E Hin).
Qed.

Lemma derive_row_arrival (sr : Sql.row) (r : Row) :
  derive_row sr = Ok r -> Arrival_Date r = Sql.Arrival_Date sr.
Proof.
  unfold derive_row, Pandas.to_datetime1.
  destruct (_ && _); simpl; [|discriminate].
  destruct (Pandas.to_datetime_opt _); simpl; [|discriminate].
  intros H. now injection H as <-.
Qed.

Lemma load_data_arrivals (w w' : World) (df : DataFrame) :
  load_data w = (Ok df, w') ->
  Forall (fun r => ymd2ord 2023 1 1 <= Arrival_Date r <= ymd2ord 9999 12 31) df.
Proof.
  unfold load_data. destruct (connect w) as [[conn|e] w1]; [|discriminate].
  unfold read_sql. destruct (Sql.query (database w1)) as [rows|e] eqn:Eq;
    [|discriminate].
  destruct (derive rows) as [df0|e] eqn:Hd; [|discriminate].
  intros H. injection H as -> _. apply mapM_Ok in Hd.
  apply Forall_forall. intros r Hr.
  destruct (Forall2_In_r _ _ _ _ Hd Hr) as [sr [Hsr Hdr]].
  rewrite (derive_row_arrival _ _ Hdr).
  destruct (query_rows _ _ _ Eq Hsr) as [j [_ Hj]].
  apply select_row_Some in Hj. destruct j as [[[[B C] BU] BUT] D]. tauto.
Qed.

(** ** The monthly trend *)

Lemma group_keys_In (f : DataFrame) (k : string) :
  In k (group_keys f) <-> exists r, In r f /\ Month r = k.
Proof.
  unfold group_keys.
  assert (P := sort_by_perm String.leb (Pandas.unique_from String.eqb [] (map Month f))).
  split.
  - intros H. apply (Permutation_in _ P) in H.
    apply (unique_from_In _ String.eqb_eq) in H. destruct H as [H _].
    apply in_map_iff in H. destruct H as [r [E Hr]]. now exists r.
  - intros [r [Hr E]]. apply (Permutation_in _ (Permutation_sym P)).
    apply (unique_from_In _ String.eqb_eq). simpl. split; [|tauto].
    apply in_map_iff. now exists r.
Qed.

Lemma group_keys_NoDup (f : DataFrame) : NoDup (group_keys f).
Proof.
  unfold group_keys.
  eapply Permutation_NoDup.
  - apply Permutation_sym, sort_by_perm.
  - apply (unique_from_NoDup _ String.eqb_eq).
Qed.

Lemma group_keys_sorted (f : DataFrame) :
  Sorted (fun a b => String.leb a b = true) (group_keys f).
Proof. apply sort_by_sorted, String.leb_total. Qed.

Lemma trend_data_keys (f : DataFrame) : map fst (trend_data f) = group_keys f.
Proof.
  unfold trend_data. rewrite map_map. simpl. apply map_id.
Qed.

Lemma length_dropna_map {A B : Type} (g : A -> option B) (l : list A) :
  List.length (dropna (map g l))
  = List.length (filter (fun a => match g a with Some _ => true | None => false end) l).
Proof.
  induction l as [|a l IH]; simpl; [reflexivity|].
  destruct (g a); simpl; now rewrite IH.
Qed.

(** C2 fails on the code: on the empty filtered frame the counts are 0,
    the top nationality is "N/A" and the three tables are empty, but the
    average stay is never computed: 'Departure Date' still has the object
    dtype, line 113 raises TypeError on every frame, the empty one
    included, and no summary is produced. *)
Theorem summarize_empty_raises :
  summarize [] = Raise TypeError
  /\ summarize [] <> Ok Spec.empty_summary
  /\ (forall f, avg_stay f = Raise TypeError)
  /\ total_bookings [] = 0%nat /\ total_guests [] = 0
  /\ top_nat [] = Ok "N/A"%string
  /\ lodge_counts [] = [] /\ nat_counts [] = [] /\ trend_data [] = [].
Proof.
  split; [reflexivity|]. split; [discriminate|]. split; [|repeat split].
  intro f. reflexivity.
Qed.

(** C5 as stated fails: the two rows of booking B1 arrive in June 2023,
    and the trend reports 2 for that month where one booking arrived. *)
Lemma trend_counts_rows_not_bookings :
  ~ (forall (f : DataFrame) (k : string) (n : nat),
        In (k, n) (trend_data f) -> n = Spec.bookings_in_month f k).
Proof.
  intros H.
  specialize (H Sample.two_units "2023-06"%string 2%nat (or_introl eq_refl)).
  vm_compute in H. discriminate.
Qed.

(** C5, amended. The trend has one entry for each year-month in which
    some row of the frame arrives, and the entry counts the rows arriving
    in that month whose booking reference is not missing: a booking held
    by several rows counts once for each of them. *)
Theorem trend_data_counts_rows (f : DataFrame) :
  NoDup (map fst (trend_data f))
  /\ (forall k, In k (map fst (trend_data f)) <-> exists r, In r f /\ Month r = k)
  /\ (forall k n, In (k, n) (trend_data f) ->
                  n = List.length (filter (counted_in k) f)).
Proof.
  rewrite trend_data_keys. split; [apply group_keys_NoDup|].
  split; [apply group_keys_In|].
  intros k n H. unfold trend_data in H. apply in_map_iff in H.
  destruct H as [k' [E _]]. injection E as -> <-.
  unfold group_count. rewrite length_dropna_map. f_equal.
  induction f as [|r f IH]; simpl; [reflexivity|].
  unfold counted_in at 1. destruct (String.eqb (Month r) k); simpl.
  - destruct (Booking_Ref r); now rewrite IH.
  - apply IH.
Qed.

(** Witness of C5 (amended): booking B1, two rows in June 2023. *)
Lemma trend_data_counts_rows_witness :
  2%nat = List.length (filter (counted_in "2023-06") Sample.two_units).
Proof.
  apply (proj2 (proj2 (trend_data_counts_rows Sample.two_units))).
  simpl. now left.
Defined.

Lemma keys_chronological (keys : list string) :
  Sorted (fun a b => String.leb a b = true) keys ->
  NoDup keys ->
  (forall k, In k keys -> exists d, four_digit_year d /\ period_M_str d = k) ->
  exists months : list Date,
    keys = map period_M_str months
    /\ Forall four_digit_year months
    /\ Sorted (fun a b => period_ordinal a < period_ordinal b) months.
Proof.
  induction keys as [|k ks IH]; intros Hs Hnd Hk.
  - exists []. repeat constructor.
  - inversion Hs as [|? ? Hs' Hhd]; subst. inversion Hnd as [|? ? Hnin Hnd']; subst.
    destruct (IH Hs' Hnd') as (months & Eks & Hfd & Hsorted).
    { intros k' Hk'. apply Hk. now right. }
    destruct (Hk k (or_introl eq_refl)) as (d & Hd & Edk).
    exists (d :: months). split; [simpl; congruence|].
    split; [now constructor|]. constructor; [assumption|].
    destruct months as [|d' months]; [constructor|]. constructor.
    simpl in Eks. subst ks. inversion Hhd as [|? ? Hle]; subst.
    inversion Hfd as [|? ? Hd' _]; subst.
    unfold String.leb in Hle.
    rewrite (period_M_str_compare d d' Hd Hd') in Hle.
    destruct (Z.compare_spec (period_ordinal d) (period_ordinal d')) as [E|E|E];
      [|assumption|discriminate].
    exfalso. apply Hnin. left.
    apply String.compare_eq_iff.
    rewrite (period_M_str_compare d' d Hd' Hd). now apply Z.compare_eq_iff.
Qed.

Lemma trend_keys_sorted_4digit (f : DataFrame) :
  Forall (fun r => four_digit_year (Arrival_Date r)) f ->
  exists months : list Date,
    map fst (trend_data f) = map period_M_str months
    /\ StronglySorted (fun a b => period_ordinal a < period_ordinal b) months.
Proof.
  intros Hf. rewrite trend_data_keys.
  destruct (keys_chronological (group_keys f)) as (months & E & _ & Hs).
  - apply group_keys_sorted.
  - apply group_keys_NoDup.
  - intros k Hk. apply group_keys_In in Hk. destruct Hk as [r [Hr E]].
    exists (Arrival_Date r). split; [|exact E].
    rewrite Forall_forall in Hf. now apply Hf.
  - exists months. split; [assumption|].
    apply Sorted_StronglySorted; [|assumption].
    intros a b c. apply Z.lt_trans.
Qed.

(** C6. Whatever the order of the rows, the keys of the monthly trend
    of a filtered frame come out in chronological order: they are the
    year-month strings of a strictly increasing sequence of months, and
    no month of the frame is missing.  Rows arriving in March and then in
    January of 2023 give January before March. *)
Theorem trend_keys_chronological (w w' : World) (df : DataFrame) (s : Selection) :
  load_data w = (Ok df, w') ->
  (exists months : list Date,
      map fst (trend_data (filtered_df df s)) = map period_M_str months
      /\ StronglySorted (fun a b => period_ordinal a < period_ordinal b) months)
  /\ (forall r, In r (filtered_df df s) ->
                In (Month r) (map fst (trend_data (filtered_df df s))))
  /\ map fst (trend_data Sample.march_january) = ["2023-01"; "2023-03"]%string.
Proof.
  intros Hload. split; [|split].
  - apply trend_keys_sorted_4digit.
    apply load_data_arrivals in Hload. rewrite Forall_forall in *.
    intros r Hr. apply filter_In in Hr. destruct Hr as [Hr _].
    apply Hload in Hr. apply year_of_range in Hr. unfold four_digit_year. lia.
  - intros r Hr. rewrite trend_data_keys. apply group_keys_In. now exists r.
  - reflexivity.
Qed.

(** Witness of C6: the frame loaded from the database that stores a
    March booking before a January one, under a selection that keeps
    both. *)
Lemma trend_keys_chronological_witness :
  map fst (trend_data (filtered_df Sample.loaded_march_january
                         Sample.sel_first_quarter))
  = ["2023-01"; "2023-03"]%string
  /\ exists months : list Date,
       map fst (trend_data (filtered_df Sample.loaded_march_january
                              Sample.sel_first_quarter))
       = map period_M_str months
       /\ StronglySorted (fun a b => period_ordinal a < period_ordinal b) months.
Proof.
  split; [vm_compute; reflexivity|].
  refine (proj1 (trend_keys_chronological
                   Sample.world_march_january
                   (snd (load_data Sample.world_march_january))
                   Sample.loaded_march_january Sample.sel_first_quarter _)).
  vm_compute. reflexivity.
Defined.

(** ** Decoding minute offsets *)

Lemma epoch_literal :
  Sql.datetime_of_literal "1897-01-01"
  = Some {| Sql.dt_days := Spec.EPOCH - Sql.BASE_1900; Sql.dt_ticks := 0 |}.
Proof. reflexivity. Qed.

Lemma spec_decode_days (m : Z) : Spec.decode m = Spec.EPOCH + m / 1440.
Proof.
  unfold Spec.decode, Spec.truncate_to_date, Spec.midnight.
  change Spec.MINUTES_PER_DAY with 1440. apply Z.div_add_l. lia.
Qed.

(** The three outcomes of decoding a stored offset. *)
Lemma decode_minute_eq (m : Z) :
  Sql.decode_minute (Some m)
  = if (m <? Sql.INT_MIN) || (Sql.INT_MAX <? m) then Raise ArithmeticOverflow
    else if (Sql.DATETIME_MIN <=? Spec.decode m) && (Spec.decode m <=? Sql.DATETIME_MAX)
         then Ok (Some (Spec.decode m))
         else Raise DateaddOverflow.
Proof.
  unfold Sql.decode_minute. rewrite epoch_literal. unfold Sql.DATEADD_minute.
  destruct ((m <? Sql.INT_MIN) || (Sql.INT_MAX <? m)); [reflexivity|].
  cbn [Sql.dt_days Sql.dt_ticks].
  assert (Ed : (0 + m * Sql.TICKS_PER_MINUTE) / Sql.TICKS_PER_DAY = m / 1440).
  { unfold Sql.TICKS_PER_DAY. rewrite Z.add_0_l.
    apply Z.div_mul_cancel_r; [lia | discriminate]. }
  rewrite Ed.
  assert (Es : Sql.BASE_1900 + (Spec.EPOCH - Sql.BASE_1900 + m / 1440) = Spec.decode m).
  { rewrite spec_decode_days. lia. }
  rewrite Es.
  destruct ((Sql.DATETIME_MIN <=? Spec.decode m) && (Spec.decode m <=? Sql.DATETIME_MAX));
    [|reflexivity].
  unfold bind, Sql.CAST_AS_DATE. cbn [Sql.dt_days]. now rewrite Es.
Qed.




(** ** The joins of the extraction query *)

Lemma left_join_Some {L R : Type} (on : L -> R -> Sql.tv)
    (ls : list L) (rs : list R) (l : L) (r : R) :
  In (l, Some r) (Sql.left_join on ls rs) ->
  In l ls /\ In r rs /\ on l r = Some true.
Proof.
  unfold Sql.left_join. rewrite in_flat_map. intros [l' [Hl' H]].
  assert (Hm : In (l, Some r)
                 (map (fun r0 => (l', Some r0))
                      (filter (fun r0 => Sql.is_true (on l' r0)) rs))).
  { destruct (filter (fun r0 => Sql.is_true (on l' r0)) rs) as [|x xs];
      [|exact H].
    destruct H as [H|[]]. discriminate. }
  apply in_map_iff in Hm. destruct Hm as [r0 [E Hr0]].
  injection E as -> ->. apply filter_In in Hr0. destruct Hr0 as [Hr Ht].
  repeat split; try assumption.
  unfold Sql.is_true in Ht. destruct (on l r) as [[|]|]; congruence.
Qed.

Lemma sql_eq_true_Some (a b : option Z) :
  Sql.sql_eq a b = Some true -> exists x, a = Some x /\ b = Some x.
Proof.
  destruct a as [x|], b as [y|]; simpl; try discriminate.
  intros H. injection H as H. apply Z.eqb_eq in H. subst. now exists y.
Qed.

(** The WHERE clause undoes the outer joins: every row of the result
    set belongs to a booking that is assigned a unit, of a unit type with
    a department. *)
Lemma query_rows_need_unit (db : Sql.Database) (rows : list Sql.row) (r : Sql.row) :
  Sql.query db = Ok rows -> In r rows ->
  exists (B : Sql.bkmain) (BU : Sql.bkunit),
    In B (Sql.tbl_bkmain db) /\ In BU (Sql.tbl_bkunit db)
    /\ Sql.Booking_Ref r = Sql.booking_reference B
    /\ Sql.sql_eq (Sql.id_bkunit B) (Sql.booking_unit_bkunit BU) = Some true.
Proof.
  intros Hq Hr. destruct (query_rows _ _ _ Hq Hr) as [j [Hj Hs]].
  pose proof (select_row_Some _ _ Hs) as Hsel.
  destruct j as [[[[B C] BU] BUT] D].
  destruct Hsel as (_ & _ & _ & dept & -> & _).
  assert (Eref : Sql.Booking_Ref r = Sql.booking_reference B).
  { unfold Sql.select_row in Hs.
    destruct (Sql.decode_minute (Sql.arrival_minute B)) as [[a|]|e];
      simpl in Hs; try discriminate.
    destruct (Sql.is_true _); [|discriminate].
    destruct (Sql.decode_minute (Sql.departure_minute B)); simpl in Hs;
      [|discriminate].
    destruct (Sql.decode_minute (Sql.creation_minute B)); simpl in Hs;
      [|discriminate].
    injection Hs as <-. reflexivity. }
  unfold Sql.from_clause in Hj.
  apply left_join_Some in Hj. destruct Hj as (Hj & _ & Hon3).
  apply sql_eq_true_Some in Hon3. destruct Hon3 as (x & Ex & _).
  destruct BUT as [but|]; [|discriminate].
  apply left_join_Some in Hj. destruct Hj as (Hj & _ & Hon2).
  apply sql_eq_true_Some in Hon2. destruct Hon2 as (y & Ey & _).
  destruct BU as [bu|]; [|discriminate].
  apply left_join_Some in Hj. destruct Hj as (Hj & Hbu & Hon1).
  unfold Sql.inner_join in Hj. apply in_flat_map in Hj.
  destruct Hj as (B' & HB' & Hj). apply in_map_iff in Hj.
  destruct Hj as (C' & E & _). injection E as -> ->.
  exists B, bu. auto.
Qed.

(** C4 fails on the code: a booking of a live guest, arriving after the
    cut-over date and assigned no unit, passes the row filters of the
    specification but is absent from the result set; the same booking
    assigned a unit is returned. *)
Theorem query_drops_booking_without_unit :
  Spec.passes_row_filters Sample.booking_without_unit Sample.guest None = true
  /\ Sql.query (Sample.db_of Sample.booking_without_unit) = Ok []
  /\ (exists r, Sql.query (Sample.db_of Sample.booking_with_unit) = Ok [r]).
Proof.
  split; [reflexivity|]. split; [reflexivity|].
  eexists. vm_compute. reflexivity.
Qed.

(** ** The database connection *)

(** C9 as stated fails: when the query raises, the connection that
    [load_data] opened is still open once the exception has left it. *)
Lemma load_data_leaves_connection_open :
  ~ (forall w : World, Spec.released w (snd (load_data w))).
Proof.
  intros H. specialize (H (Sample.world_of Sample.booking_1700) O).
  vm_compute in H. apply H. now left.
Qed.

(** The three ways out of [load_data] after the connection is opened. *)
Lemma load_data_exit_paths :
  (exists df, fst (load_data (Sample.world_of Sample.booking_with_unit)) = Ok df)
  /\ fst (load_data (Sample.world_of Sample.booking_1700)) = Raise DateaddOverflow
  /\ fst (load_data (Sample.world_of Sample.booking_2300)) = Raise OutOfBoundsDatetime.
Proof.
  split; [eexists; vm_compute; reflexivity|]. split; reflexivity.
Qed.

Lemma mapM_Raise {A B : Type} (f : A -> result B) (l : list A) (e : exn) :
  mapM f l = Raise e -> exists a, In a l /\ f a = Raise e.
Proof.
  induction l as [|a l IH]; simpl; [discriminate|].
  destruct (f a) as [b|e'] eqn:Ea; simpl.
  - destruct (mapM f l) as [bs|e'] eqn:El; simpl; [discriminate|].
    intros H. injection H as ->. destruct (IH eq_refl) as [a' [Ha' Hf]].
    exists a'. auto.
  - intros H. injection H as ->. exists a. auto.
Qed.

Lemma decode_minute_raises (m : option Z) (e : exn) :
  Sql.decode_minute m = Raise e -> e <> ConnectionError.
Proof.
  destruct m as [n|]; [|discriminate]. rewrite decode_minute_eq.
  destruct (_ || _); [intros H; injection H as <-; discriminate|].
  destruct (_ && _); [discriminate|]. intros H. injection H as <-. discriminate.
Qed.

(** The statements of [load_data] after [connect] never raise
    ConnectionError. *)
Lemma query_raises (db : Sql.Database) (e : exn) :
  Sql.query db = Raise e -> e <> ConnectionError.
Proof.
  unfold Sql.query.
  destruct (mapM Sql.select_row (Sql.from_clause db)) as [rs|e'] eqn:E;
    simpl; [discriminate|].
  intros H. injection H as ->. apply mapM_Raise in E.
  destruct E as [[[[[B C] BU] BUT] D] [_ Hs]]. unfold Sql.select_row in Hs.
  destruct (Sql.decode_minute (Sql.arrival_minute B)) as [[a|]|e1] eqn:Ea;
    simpl in Hs; try discriminate.
  - destruct (Sql.is_true _); [|discriminate].
    destruct (Sql.decode_minute (Sql.departure_minute B)) as [dep|e2] eqn:Edep;
      simpl in Hs.
    + destruct (Sql.decode_minute (Sql.creation_minute B)) as [cre|e3] eqn:Ecre;
        simpl in Hs; [discriminate|].
      injection Hs as <-. exact (decode_minute_raises _ _ Ecre).
    + injection Hs as <-. exact (decode_minute_raises _ _ Edep).
  - injection Hs as <-. exact (decode_minute_raises _ _ Ea).
Qed.

Lemma derive_raises (rows : list Sql.row) (e : exn) :
  derive rows = Raise e -> e = OutOfBoundsDatetime.
Proof.
  intros H. apply mapM_Raise in H. destruct H as [sr [_ H]].
  unfold derive_row, Pandas.to_datetime1 in H.
  destruct (_ && _); cbn [bind] in H; [|now injection H].
  unfold Pandas.to_datetime_opt, Pandas.to_datetime1 in H.
  destruct (Sql.Date_Booked sr) as [d|]; cbn [bind] in H; [|discriminate].
  destruct (_ && _); cbn [bind] in H; [discriminate | now injection H].
Qed.

Lemma close_fresh (conn : nat) (w : World) (h0 : nat) (hs : list nat) :
  open_conns w = h0 :: hs -> conn = h0 -> ~ In conn hs ->
  open_conns (close conn w) = hs.
Proof.
  intros E -> Hn. unfold close. cbn [open_conns]. rewrite E. cbn [filter].
  rewrite Nat.eqb_refl. cbn [negb]. apply filter_all.
  intros h Hh. destruct (Nat.eqb h h0) eqn:Eh; [|reflexivity].
  apply Nat.eqb_eq in Eh. subst. contradiction.
Qed.

(** C9, amended. [load_data] performs no close.  When it returns the
    frame, the connection it opened has been released by the deallocation
    of the local [conn] on return, and the open connections are those
    that were open before the call.  When the query or the conversions
    after it raise, the connection is still open when the exception
    leaves [load_data].  When the server is unreachable no connection is
    opened and ConnectionError is raised.  (Handles are allocated in
    increasing order: those open are below the next one.) *)
Theorem load_data_releases_on_return_only (w : World) :
  Forall (fun h => (h < next_handle w)%nat) (open_conns w) ->
  (forall df w', load_data w = (Ok df, w') ->
                 reachable w = true /\ open_conns w' = open_conns w)
  /\ (forall e w', load_data w = (Raise e, w') ->
         (e = ConnectionError /\ reachable w = false /\ w' = w)
         \/ (e <> ConnectionError /\ reachable w = true
             /\ ~ In (next_handle w) (open_conns w)
             /\ open_conns w' = next_handle w :: open_conns w)).
Proof.
  intros Hwf.
  assert (Hfresh : ~ In (next_handle w) (open_conns w)).
  { intros Hin. rewrite Forall_forall in Hwf. apply Hwf in Hin. lia. }
  unfold load_data, connect. destruct (reachable w) eqn:Er.
  - unfold read_sql. cbn [database].
    destruct (Sql.query (database w)) as [rows|eq] eqn:Eq.
    + destruct (derive rows) as [df0|ed] eqn:Ed.
      * split; [|intros e w' H; discriminate].
        intros df w' H. injection H as _ <-. split; [reflexivity|].
        unfold dealloc. now apply (close_fresh _ _ (next_handle w)).
      * split; [intros df w' H; discriminate|].
        intros e w' H. injection H as <- <-. right.
        apply derive_raises in Ed. subst ed.
        repeat split; try assumption; discriminate.
    + split; [intros df w' H; discriminate|].
      intros e w' H. injection H as <- <-. right.
      apply query_raises in Eq. repeat split; assumption.
  - split; [intros df w' H; discriminate|].
    intros e w' H. injection H as <- <-. left. repeat split.
Qed.

(** Witness of C9 (amended): the world in which the query raises. *)
Lemma load_data_releases_on_return_only_witness :
  open_conns (snd (load_data (Sample.world_of Sample.booking_1700))) = [O]
  /\ open_conns (snd (load_data (Sample.world_of Sample.booking_with_unit))) = [].
Proof.
  pose proof (load_data_releases_on_return_only
                (Sample.world_of Sample.booking_1700) (Forall_nil _)) as [_ H1].
  pose proof (load_data_releases_on_return_only
                (Sample.world_of Sample.booking_with_unit) (Forall_nil _)) as [H2 _].
  split.
  - destruct (H1 DateaddOverflow (snd (load_data (Sample.world_of Sample.booking_1700))))
      as [(Hc & _)|(_ & _ & _ & Ho)].
    + vm_compute. reflexivity.
    + discriminate.
    + exact Ho.
  - destruct (H2 Sample.loaded (snd (load_data (Sample.world_of Sample.booking_with_unit))))
      as [_ Ho].
    + vm_compute. reflexivity.
    + exact Ho.
Defined.

(* ===================================================================== *)
(** * Part III: further properties of the script *)
(* ===================================================================== *)

(** ** Composing filters *)

Lemma mask_filtered (df : DataFrame) (s : Selection) (r : Row) :
  In r (filtered_df df s) <-> In r df /\ mask s r = true.
Proof. apply filter_In. Qed.

Lemma filter_filter {A : Type} (p q : A -> bool) (l : list A) :
  filter p (filter q l) = filter (fun x => q x && p x) l.
Proof.
  induction l as [|a l IH]; simpl; [reflexivity|].
  destruct (q a); simpl; [destruct (p a)|]; now rewrite IH.
Qed.

Lemma filter_ext_in_bool {A : Type} (p q : A -> bool) (l : list A) :
  (forall x, In x l -> p x = q x) -> filter p l = filter q l.
Proof.
  induction l as [|a l IH]; intros H; simpl; [reflexivity|].
  rewrite (H a (or_introl eq_refl)), IH; [reflexivity|].
  intros x Hx. apply H. now right.
Qed.

(** X1. Filtering twice with the same selection changes nothing more,
    and two selections can be applied in either order. *)
Theorem filtered_df_compose (df : DataFrame) (s1 s2 : Selection) :
  filtered_df (filtered_df df s1) s1 = filtered_df df s1
  /\ filtered_df (filtered_df df s1) s2 = filtered_df (filtered_df df s2) s1.
Proof.
  unfold filtered_df. split.
  - apply filter_all. intros r Hr. apply filter_In in Hr. tauto.
  - rewrite !filter_filter. apply filter_ext_in_bool.
    intros r _. apply andb_comm.
Qed.

(** X2. A selection whose start date is after its end date selects
    nothing. *)
Theorem filtered_df_inverted_range (df : DataFrame) (s : Selection) :
  end_date s < start_date s -> filtered_df df s = [].
Proof.
  intros H. apply filter_none. intros r _.
  destruct (mask s r) eqn:E; [|reflexivity].
  apply mask_spec in E. lia.
Qed.

Lemma filtered_df_inverted_range_witness :
  filtered_df Sample.two_units
    {| start_date := Sample.d_2023_06_17; end_date := Sample.d_2023_06_15;
       selected_lodges := [Some "Sesriem"%string];
       selected_status := [Some "C"%string] |} = [].
Proof.
  apply filtered_df_inverted_range. vm_compute. reflexivity.
Defined.



(** ** The sidebar defaults *)

Lemma fold_min_In (l : list Z) (d : Z) : In (fold_right Z.min d l) (d :: l).
Proof.
  induction l as [|y l IH]; simpl; [now left|].
  destruct (Z.min_spec y (fold_right Z.min d l)) as [[_ E]|[_ E]]; rewrite E.
  - right. now left.
  - destruct IH as [IH|IH]; [now left | right; now right].
Qed.

Lemma fold_max_In (l : list Z) (d : Z) : In (fold_right Z.max d l) (d :: l).
Proof.
  induction l as [|y l IH]; simpl; [now left|].
  destruct (Z.max_spec y (fold_right Z.max d l)) as [[_ E]|[_ E]]; rewrite E.
  - destruct IH as [IH|IH]; [now left | right; now right].
  - right. now left.
Qed.

(** X4. On a non-empty frame the widgets start from a well-formed
    selection: the start date is the earliest arrival of the frame and the
    end date its latest, so start <= end; the lodge and status options
    are the values that occur in the frame, each listed once. *)
Theorem default_selection_well_formed (df : DataFrame) :
  df <> [] ->
  exists s, default_selection df = Some s
    /\ start_date s <= end_date s
    /\ (exists r, In r df /\ Arrival_Date r = start_date s)
    /\ (exists r, In r df /\ Arrival_Date r = end_date s)
    /\ (forall r, In r df -> start_date s <= Arrival_Date r <= end_date s)
    /\ NoDup (selected_lodges s) /\ NoDup (selected_status s)
    /\ (forall x, In x (selected_lodges s) <-> exists r, In r df /\ Lodge_Name r = x)
    /\ (forall x, In x (selected_status s) <-> exists r, In r df /\ Status_Code r = x).
Proof.
  intros Hne. destruct df as [|r0 df]; [congruence|].
  set (D := r0 :: df).
  set (lo := fold_right Z.min (Arrival_Date r0) (map Arrival_Date df)).
  set (hi := fold_right Z.max (Arrival_Date r0) (map Arrival_Date df)).
  exists {| start_date := lo; end_date := hi;
            selected_lodges := lodge_list D; selected_status := status_list D |}.
  assert (Hb : forall r, In r D -> lo <= Arrival_Date r <= hi).
  { intros r Hr. split.
    - apply fold_min_le. change (In (Arrival_Date r) (map Arrival_Date D)).
      now apply in_map.
    - apply fold_max_ge. change (In (Arrival_Date r) (map Arrival_Date D)).
      now apply in_map. }
  assert (Hmem : forall (g : Row -> option string) x,
             In x (Pandas.unique (map g D)) <-> exists r, In r D /\ g r = x).
  { intros g x. rewrite unique_In, in_map_iff.
    split; intros [r [H1 H2]]; exists r; tauto. }
  cbn [start_date end_date selected_lodges selected_status].
  split; [reflexivity|]. split.
  { specialize (Hb r0 (or_introl eq_refl)). lia. }
  split.
  { pose proof (fold_min_In (map Arrival_Date df) (Arrival_Date r0)) as H.
    change (In lo (map Arrival_Date D)) in H. apply in_map_iff in H.
    destruct H as [r [E Hr]]. now exists r. }
  split.
  { pose proof (fold_max_In (map Arrival_Date df) (Arrival_Date r0)) as H.
    change (In hi (map Arrival_Date D)) in H. apply in_map_iff in H.
    destruct H as [r [E Hr]]. now exists r. }
  split; [exact Hb|].
  split; [apply unique_NoDup|]. split; [apply unique_NoDup|].
  split; apply Hmem.
Qed.

Lemma default_selection_well_formed_witness :
  exists s, default_selection Sample.march_january = Some s
            /\ start_date s <= end_date s.
Proof.
  destruct (default_selection_well_formed Sample.march_january) as (s & H1 & H2 & _).
  - discriminate.
  - exists s. split; assumption.
Defined.

(** ** Order of strings and sorted lists *)

Lemma ascii_compare_refl (a : ascii) : Ascii.compare a a = Eq.
Proof. apply N.compare_refl. Qed.

Lemma string_compare_lt_trans (a b c : string) :
  String.compare a b = Lt -> String.compare b c = Lt -> String.compare a c = Lt.
Proof.
  revert b c. induction a as [|x a IH]; intros [|y b] [|z c]; simpl;
    try discriminate; try reflexivity.
  destruct (Ascii.compare x y) eqn:Exy; try discriminate;
    destruct (Ascii.compare y z) eqn:Eyz; try discriminate; intros H1 H2.
  - apply Ascii.compare_eq_iff in Exy, Eyz. subst.
    rewrite ascii_compare_refl. now apply (IH b).
  - apply Ascii.compare_eq_iff in Exy. subst. now rewrite Eyz.
  - apply Ascii.compare_eq_iff in Eyz. subst. now rewrite Exy.
  - unfold Ascii.compare in *. rewrite N.compare_lt_iff in *.
    assert (Hxz : (N_of_ascii x < N_of_ascii z)%N) by lia.
    apply N.compare_lt_iff in Hxz. now rewrite Hxz.
Qed.

Lemma string_leb_trans (a b c : string) :
  String.leb a b = true -> String.leb b c = true -> String.leb a c = true.
Proof.
  unfold String.leb.
  destruct (String.compare a b) eqn:Eab; try discriminate;
    destruct (String.compare b c) eqn:Ebc; try discriminate; intros _ _.
  - apply String.compare_eq_iff in Eab. subst. now rewrite Ebc.
  - apply String.compare_eq_iff in Eab. subst. now rewrite Ebc.
  - apply String.compare_eq_iff in Ebc. subst. now rewrite Eab.
  - now rewrite (string_compare_lt_trans a b c Eab Ebc).
Qed.

Section SortedUnique.
Context {A : Type} (le : A -> A -> bool).
Hypothesis le_trans : forall a b c, le a b = true -> le b c = true -> le a c = true.
Hypothesis le_antisym : forall a b, le a b = true -> le b a = true -> a = b.
Hypothesis le_total : forall a b, le a b = true \/ le b a = true.

Lemma sorted_head_least (x : A) (l : list A) :
  Sorted (fun a b => le a b = true) (x :: l) ->
  forall y, In y (x :: l) -> le x y = true.
Proof.
  intros Hs. apply Sorted_StronglySorted in Hs.
  - inversion Hs as [|? ? _ Hall]; subst. intros y [<-|Hy].
    + destruct (le_total x x); assumption.
    + rewrite Forall_forall in Hall. now apply Hall.
  - intros a b c. apply le_trans.
Qed.

Lemma sorted_perm_eq (l1 l2 : list A) :
  Sorted (fun a b => le a b = true) l1 ->
  Sorted (fun a b => le a b = true) l2 ->
  Permutation l1 l2 -> l1 = l2.
Proof.
  revert l2. induction l1 as [|x l1 IH]; intros l2 H1 H2 P.
  - apply Permutation_nil in P. now subst.
  - destruct l2 as [|y l2].
    + apply Permutation_sym, Permutation_nil in P. discriminate.
    + assert (x = y).
      { apply le_antisym.
        - apply (sorted_head_least x l1 H1).
          apply (Permutation_in _ (Permutation_sym P)). now left.
        - apply (sorted_head_least y l2 H2).
          apply (Permutation_in _ P). now left. }
      subst y. f_equal. apply IH.
      * now inversion H1.
      * now inversion H2.
      * now apply Permutation_cons_inv in P.
Qed.

Lemma sort_by_perm_eq (l1 l2 : list A) :
  Permutation l1 l2 -> Pandas.sort_by le l1 = Pandas.sort_by le l2.
Proof.
  intros P. apply sorted_perm_eq; try (apply sort_by_sorted; assumption).
  rewrite !sort_by_perm. exact P.
Qed.
End SortedUnique.

Lemma sort_strings_perm_eq (l1 l2 : list string) :
  Permutation l1 l2 -> Pandas.sort_by String.leb l1 = Pandas.sort_by String.leb l2.
Proof.
  apply sort_by_perm_eq.
  - apply string_leb_trans.
  - apply String.leb_antisym.
  - apply String.leb_total.
Qed.

(** ** Columns under a reordering of the rows *)

Lemma dropna_perm {A : Type} (l l' : list (option A)) :
  Permutation l l' -> Permutation (dropna l) (dropna l').
Proof.
  induction 1 as [|[x|] l l' _ IH|[x|] [y|] l|l1 l2 l3 _ IH1 _ IH2]; simpl;
    try reflexivity; try assumption.
  - now constructor.
  - apply perm_swap.
  - now transitivity (dropna l2).
Qed.

Lemma filter_perm {A : Type} (p : A -> bool) (l l' : list A) :
  Permutation l l' -> Permutation (filter p l) (filter p l').
Proof.
  induction 1 as [|x l l' _ IH|x y l|l1 l2 l3 _ IH1 _ IH2]; simpl.
  - reflexivity.
  - destruct (p x); [now constructor | assumption].
  - destruct (p x), (p y); try reflexivity. apply perm_swap.
  - now transitivity (filter p l2).
Qed.

Lemma unique_from_perm {A : Type} (eqb : A -> A -> bool)
    (eqb_eq : forall a b, eqb a b = true <-> a = b) (l l' : list A) :
  Permutation l l' ->
  Permutation (Pandas.unique_from eqb [] l) (Pandas.unique_from eqb [] l').
Proof.
  intros P. apply NoDup_Permutation; try apply (unique_from_NoDup _ eqb_eq).
  intros x. rewrite !(unique_from_In _ eqb_eq). split; intros [H Hn]; split;
    try assumption.
  - now apply (Permutation_in _ P).
  - now apply (Permutation_in _ (Permutation_sym P)).
Qed.

Lemma count_occ_str_perm (k : string) (l l' : list (option string)) :
  Permutation l l' -> Pandas.count_occ_str k l = Pandas.count_occ_str k l'.
Proof.
  intros P. unfold Pandas.count_occ_str.
  apply Permutation_length, filter_perm, P.
Qed.

Lemma fold_add_perm (l l' : list Z) :
  Permutation l l' -> fold_right Z.add 0 l = fold_right Z.add 0 l'.
Proof.
  induction 1; simpl; lia.
Qed.

Lemma fold_max_perm (l l' : list nat) :
  Permutation l l' -> fold_right Nat.max O l = fold_right Nat.max O l'.
Proof.
  induction 1; simpl; lia.
Qed.

(** ** The most frequent nationality *)

Lemma fold_max_ge_nat (l : list nat) (x : nat) :
  In x l -> (x <= fold_right Nat.max O l)%nat.
Proof.
  induction l as [|y l IH]; simpl; [tauto|].
  intros [->|H]; [lia|]. specialize (IH H). lia.
Qed.

Lemma fold_max_attained (l : list nat) :
  l <> [] -> In (fold_right Nat.max O l) l.
Proof.
  induction l as [|y l IH]; [congruence|]. intros _. simpl.
  destruct l as [|z l].
  - simpl. left. lia.
  - destruct (Nat.max_spec y (fold_right Nat.max O (z :: l))) as [[_ E]|[_ E]];
      rewrite E.
    + right. apply IH. discriminate.
    + now left.
Qed.

Lemma ostring_eq_dec (a b : option string) : {a = b} + {a <> b}.
Proof. decide equality. apply string_dec. Qed.

Lemma count_occ_str_absent (k : string) (l : list (option string)) :
  ~ In (Some k) l -> Pandas.count_occ_str k l = O.
Proof.
  intros H. unfold Pandas.count_occ_str. rewrite filter_none; [reflexivity|].
  intros x Hx. destruct (ostring_eqb (Some k) x) eqn:E; [|reflexivity].
  apply ostring_eqb_eq in E. subst. contradiction.
Qed.

(** The values [mode] returns: those that occur and are at least as
    frequent as every other. *)
Lemma mode_In (l : list (option string)) (n : string) :
  In n (Pandas.mode l) <->
  In (Some n) l
  /\ forall k, (Pandas.count_occ_str k l <= Pandas.count_occ_str n l)%nat.
Proof.
  unfold Pandas.mode.
  set (keys := dropna (Pandas.unique l)).
  set (cnt := fun k => Pandas.count_occ_str k l).
  set (top := fold_right Nat.max O (map snd (map (fun k => (k, cnt k)) keys))).
  assert (Hkeys : forall k, In k keys <-> In (Some k) l).
  { intro k. unfold keys. now rewrite dropna_In, unique_In. }
  assert (Htop : forall k, (cnt k <= top)%nat).
  { intro k. destruct (in_dec ostring_eq_dec (Some k) l) as [Hk|Hk].
    - apply fold_max_ge_nat. rewrite map_map. simpl.
      apply in_map_iff. exists k. split; [reflexivity|]. now apply Hkeys.
    - unfold cnt. rewrite (count_occ_str_absent k l Hk). lia. }
  assert (Hmem : In n (Pandas.sort_by String.leb
                        (map fst (filter (fun kc => Nat.eqb (snd kc) top)
                                    (map (fun k => (k, cnt k)) keys))))
                 <-> In n keys /\ cnt n = top).
  { split.
    - intros H. apply (Permutation_in _ (sort_by_perm _ _)) in H.
      apply in_map_iff in H. destruct H as [[k c] [E H]]. simpl in E. subst k.
      apply filter_In in H. destruct H as [H Hc]. apply in_map_iff in H.
      destruct H as [k [E Hk]]. injection E as -> <-.
      simpl in Hc. apply Nat.eqb_eq in Hc. tauto.
    - intros [Hk Hc]. apply (Permutation_in _ (Permutation_sym (sort_by_perm _ _))).
      apply in_map_iff. exists (n, cnt n). split; [reflexivity|].
      apply filter_In. split.
      + apply in_map_iff. now exists n.
      + simpl. now apply Nat.eqb_eq. }
  change (In n (Pandas.sort_by String.leb
                  (map fst (filter (fun kc => Nat.eqb (snd kc) top)
                              (map (fun k => (k, cnt k)) keys))))
          <-> In (Some n) l /\ (forall k, (cnt k <= cnt n)%nat)).
  rewrite Hmem, Hkeys. split.
  - intros [Hn Hc]. split; [assumption|]. intro k.
    rewrite Hc. apply Htop.
  - intros [Hn Hc]. split; [assumption|].
    assert (Hne : map snd (map (fun k => (k, cnt k)) keys) <> []).
    { apply Hkeys in Hn. destruct keys; [destruct Hn | discriminate]. }
    apply fold_max_attained in Hne. fold top in Hne.
    rewrite map_map in Hne. simpl in Hne. apply in_map_iff in Hne.
    destruct Hne as [k [E _]]. specialize (Hc k). specialize (Htop n). lia.
Qed.

Lemma mode_nonempty (l : list (option string)) (n : string) :
  In (Some n) l -> Pandas.mode l <> [].
Proof.
  intros Hn.
  set (keys := dropna (Pandas.unique l)).
  assert (Hkeys : forall k, In k keys <-> In (Some k) l).
  { intro k. unfold keys. now rewrite dropna_In, unique_In. }
  assert (Hne : map (fun k => Pandas.count_occ_str k l) keys <> []).
  { apply Hkeys in Hn. destruct keys; [destruct Hn | discriminate]. }
  apply fold_max_attained in Hne. apply in_map_iff in Hne.
  destruct Hne as [k [E Hk]].
  assert (Hm : In k (Pandas.mode l)).
  { apply mode_In. split; [now apply Hkeys|].
    intro k'. rewrite E.
    destruct (in_dec ostring_eq_dec (Some k') l) as [Hk'|Hk'].
    - apply fold_max_ge_nat. apply in_map_iff. exists k'.
      split; [reflexivity | now apply Hkeys].
    - rewrite (count_occ_str_absent _ _ Hk'). lia. }
  intro E0. rewrite E0 in Hm. destruct Hm.
Qed.

Lemma mode_sorted (l : list (option string)) :
  Sorted (fun a b => String.leb a b = true) (Pandas.mode l).
Proof. apply sort_by_sorted, String.leb_total. Qed.

(** X5. [top_nat] raises exactly on a non-empty frame in which no row
    has a nationality, and then it raises KeyError; on the empty frame it
    is "N/A". *)
Theorem top_nat_raises_iff (f : DataFrame) :
  top_nat [] = Ok "N/A"%string
  /\ (forall e, top_nat f = Raise e ->
                e = KeyError /\ f <> [] /\ Forall (fun r => Nationality r = None) f)
  /\ (f <> [] -> Forall (fun r => Nationality r = None) f ->
      top_nat f = Raise KeyError).
Proof.
  split; [reflexivity|]. split.
  - intros e H. destruct f as [|r f]; [discriminate|].
    unfold top_nat in H.
    destruct (Pandas.mode (map Nationality (r :: f))) as [|n ms] eqn:Em;
      [|discriminate].
    simpl in H. injection H as <-. split; [reflexivity|]. split; [discriminate|].
    apply Forall_forall. intros x Hx.
    destruct (Nationality x) as [n|] eqn:En; [|reflexivity]. exfalso.
    assert (Hin : In (Some n) (map Nationality (r :: f))).
    { rewrite <- En. now apply in_map. }
    exact (mode_nonempty _ n Hin Em).
  - intros Hne Hall. destruct f as [|r f]; [congruence|]. unfold top_nat.
    rewrite mode_all_missing; [reflexivity|].
    rewrite Forall_forall in *. intros x Hx. apply in_map_iff in Hx.
    destruct Hx as [r' [<- Hr']]. now apply Hall.
Qed.

Lemma top_nat_raises_iff_witness :
  top_nat [Sample.no_nationality] = Raise KeyError.
Proof.
  apply (proj2 (proj2 (top_nat_raises_iff [Sample.no_nationality]))).
  - discriminate.
  - repeat constructor.
Defined.

(** X6. On a non-empty frame [top_nat] returns [n] exactly when [n] is
    a nationality of the frame, no nationality has more rows, and [n] is
    the first in string order among those with as many rows: ties are
    broken by the smallest string, whatever the order of the rows. *)
Theorem top_nat_most_frequent (f : DataFrame) (n : string) :
  f <> [] ->
  let nats := map Nationality f in
  top_nat f = Ok n <->
  In (Some n) nats
  /\ (forall k, (Pandas.count_occ_str k nats <= Pandas.count_occ_str n nats)%nat)
  /\ (forall k, In (Some k) nats ->
                Pandas.count_occ_str k nats = Pandas.count_occ_str n nats ->
                String.leb n k = true).
Proof.
  intros Hne nats. destruct f as [|r f]; [congruence|].
  change (top_nat (r :: f)) with (Pandas.getitem0 (Pandas.mode nats)).
  pose proof (mode_sorted nats) as Hs.
  assert (Hleast : forall m ms, Pandas.mode nats = m :: ms ->
                     forall k, In k (Pandas.mode nats) -> String.leb m k = true).
  { intros m ms Em k Hk. rewrite Em in Hs, Hk.
    apply (sorted_head_least String.leb string_leb_trans String.leb_total m ms Hs k Hk). }
  split.
  - intros H. destruct (Pandas.mode nats) as [|m ms] eqn:Em; [discriminate|].
    simpl in H. injection H as ->.
    assert (Hn : In n (Pandas.mode nats)) by (rewrite Em; now left).
    apply mode_In in Hn. destruct Hn as [Hin Hmax].
    split; [assumption|]. split; [assumption|].
    intros k Hk Hc. apply (Hleast n ms eq_refl).
    rewrite <- Em. apply mode_In. split; [assumption|].
    intro k'. rewrite Hc. apply Hmax.
  - intros (Hin & Hmax & Hfirst).
    assert (Hn : In n (Pandas.mode nats)) by (apply mode_In; tauto).
    destruct (Pandas.mode nats) as [|m ms] eqn:Em; [destruct Hn|].
    simpl. f_equal.
    assert (Hm : In m (Pandas.mode nats)) by (rewrite Em; now left).
    apply mode_In in Hm. destruct Hm as [Hmin Hmmax].
    apply String.leb_antisym.
    + exact (Hleast m ms eq_refl n Hn).
    + apply Hfirst; [assumption|]. specialize (Hmax m). specialize (Hmmax n). lia.
Qed.

Lemma top_nat_most_frequent_witness :
  top_nat Sample.two_units = Ok "NA"%string <->
  In (Some "NA"%string) (map Nationality Sample.two_units)
  /\ (forall k, (Pandas.count_occ_str k (map Nationality Sample.two_units)
                 <= Pandas.count_occ_str "NA" (map Nationality Sample.two_units))%nat)
  /\ (forall k, In (Some k) (map Nationality Sample.two_units) ->
                Pandas.count_occ_str k (map Nationality Sample.two_units)
                = Pandas.count_occ_str "NA" (map Nationality Sample.two_units) ->
                String.leb "NA" k = true).
Proof.
  apply (top_nat_most_frequent Sample.two_units "NA"%string). discriminate.
Defined.

(** ** Bounds on the KPIs *)

Lemma dropna_length_le {A : Type} (l : list (option A)) :
  (List.length (dropna l) <= List.length l)%nat.
Proof.
  induction l as [|[x|] l IH]; simpl; lia.
Qed.

Lemma nunique_incl (l1 l2 : list (option string)) :
  incl l1 l2 -> (Pandas.nunique l1 <= Pandas.nunique l2)%nat.
Proof.
  intros H. unfold Pandas.nunique. apply NoDup_incl_length.
  - apply dropna_NoDup, unique_NoDup.
  - intros b. rewrite !dropna_In, !unique_In. apply H.
Qed.

(** X7. The number of bookings never exceeds the number of rows, and
    filtering never raises it. *)
Theorem total_bookings_bounds (df : DataFrame) (s : Selection) :
  (total_bookings (filtered_df df s) <= total_bookings df)%nat
  /\ (total_bookings df <= List.length df)%nat.
Proof.
  split.
  - apply nunique_incl. intros x Hx. apply in_map_iff in Hx.
    destruct Hx as [r [<- Hr]]. apply in_map. apply filter_In in Hr. tauto.
  - unfold total_bookings, Pandas.nunique.
    rewrite <- (length_map Booking_Ref df).
    etransitivity; [apply dropna_length_le|].
    apply NoDup_incl_length; [apply unique_NoDup|].
    intros x. now rewrite unique_In.
Qed.



(** ** The two count tables *)

Lemma value_counts_perm (l : list (option string)) :
  Permutation (Pandas.value_counts l)
    (map (fun k => (k, Pandas.count_occ_str k l)) (dropna (Pandas.unique l))).
Proof. apply sort_by_perm. Qed.

Lemma value_counts_In (l : list (option string)) (k : string) (c : nat) :
  In (k, c) (Pandas.value_counts l) <->
  In (Some k) l /\ c = Pandas.count_occ_str k l.
Proof.
  split.
  - intros H. apply (Permutation_in _ (value_counts_perm l)) in H.
    apply in_map_iff in H. destruct H as [k' [E Hk]]. injection E as -> <-.
    rewrite dropna_In, unique_In in Hk. tauto.
  - intros [Hk ->]. apply (Permutation_in _ (Permutation_sym (value_counts_perm l))).
    apply in_map_iff. exists k. split; [reflexivity|].
    now rewrite dropna_In, unique_In.
Qed.

Lemma value_counts_keys_NoDup (l : list (option string)) :
  NoDup (map fst (Pandas.value_counts l)).
Proof.
  eapply Permutation_NoDup.
  - apply Permutation_sym, Permutation_map, value_counts_perm.
  - rewrite map_map. simpl. rewrite map_id. apply dropna_NoDup, unique_NoDup.
Qed.

Lemma value_counts_sorted (l : list (option string)) :
  StronglySorted (fun a b => (snd b <= snd a)%nat) (Pandas.value_counts l).
Proof.
  unfold Pandas.value_counts.
  set (le := fun a b : string * nat => Nat.leb (snd b) (snd a)).
  assert (Hs : Sorted (fun a b => le a b = true)
                 (Pandas.sort_by le
                    (map (fun k => (k, Pandas.count_occ_str k l))
                       (dropna (Pandas.unique l))))).
  { apply sort_by_sorted. intros a b. unfold le. rewrite !Nat.leb_le. lia. }
  apply Sorted_StronglySorted in Hs.
  - eapply StronglySorted_ind with (P := StronglySorted (fun a b => (snd b <= snd a)%nat));
      [constructor | | exact Hs].
    intros a t _ IH Hall. constructor; [exact IH|].
    eapply Forall_impl; [|exact Hall]. intros b Hb. unfold le in Hb.
    now apply Nat.leb_le in Hb.
  - intros a b c. unfold le. rewrite !Nat.leb_le. lia.
Qed.

Lemma fold_add_nat_perm (l l' : list nat) :
  Permutation l l' -> fold_right Nat.add O l = fold_right Nat.add O l'.
Proof.
  induction 1; simpl; lia.
Qed.

(** The rows with a key are shared out among the keys. *)
Lemma count_partition (keys : list string) (l : list (option string)) :
  NoDup keys -> (forall k, In (Some k) l -> In k keys) ->
  fold_right Nat.add O (map (fun k => Pandas.count_occ_str k l) keys)
  = List.length (dropna l).
Proof.
  intros Hnd. induction l as [|x l IH]; intros Hall.
  - induction keys as [|k keys IHk]; simpl; [reflexivity|].
    inversion Hnd; subst. rewrite IHk; [reflexivity | assumption | intros k' []].
  - assert (IH' := IH (fun k Hk => Hall k (or_intror Hk))).
    assert (Hstep : forall ks, NoDup ks ->
              fold_right Nat.add O (map (fun k => Pandas.count_occ_str k (x :: l)) ks)
              = ((match x with
                  | Some k0 => if existsb (String.eqb k0) ks then 1 else 0
                  | None => 0
                  end)
                 + fold_right Nat.add O (map (fun k => Pandas.count_occ_str k l) ks))%nat).
    { induction 1 as [|k ks Hk Hks IHks]; cbn [map fold_right existsb].
      - destruct x; reflexivity.
      - rewrite IHks.
        assert (Ec : Pandas.count_occ_str k (x :: l)
                     = ((if ostring_eqb (Some k) x then 1 else 0)
                        + Pandas.count_occ_str k l)%nat).
        { unfold Pandas.count_occ_str. cbn [filter].
          destruct (ostring_eqb (Some k) x); reflexivity. }
        rewrite Ec. clear Ec.
        destruct x as [k0|]; cbn [ostring_eqb]; [|lia].
        rewrite (String.eqb_sym k0 k).
        destruct (String.eqb k k0) eqn:E; cbn [orb].
        + apply String.eqb_eq in E. subst k0.
          destruct (existsb (String.eqb k) ks) eqn:Ex; [|lia].
          apply (existsb_eqb_In String.eqb String.eqb_eq) in Ex. contradiction.
        + destruct (existsb (String.eqb k0) ks); lia. }
    rewrite (Hstep keys Hnd), IH'. destruct x as [k0|]; cbn [dropna List.length];
      [|reflexivity].
    destruct (existsb (String.eqb k0) keys) eqn:Ex; [reflexivity|].
    exfalso. assert (Hin : In k0 keys) by (apply Hall; now left).
    apply (existsb_eqb_In String.eqb String.eqb_eq) in Hin. congruence.
Qed.

(** X10. The lodge table has one entry for each lodge name that occurs
    in the frame, with the number of rows of that lodge, the busiest lodge
    first; rows without a lodge name are in no entry, and the counts add up
    to the number of rows that have one. *)
Theorem lodge_counts_spec (f : DataFrame) :
  NoDup (map fst (lodge_counts f))
  /\ (forall k c, In (k, c) (lodge_counts f) <->
                  (exists r, In r f /\ Lodge_Name r = Some k)
                  /\ c = List.length (filter (fun r => ostring_eqb (Some k) (Lodge_Name r)) f))
  /\ StronglySorted (fun a b => (snd b <= snd a)%nat) (lodge_counts f)
  /\ fold_right Nat.add O (map snd (lodge_counts f))
     = List.length (filter (fun r => match Lodge_Name r with
                                     | Some _ => true | None => false end) f).
Proof.
  unfold lodge_counts.
  assert (Hc : forall k, Pandas.count_occ_str k (map Lodge_Name f)
                         = List.length (filter (fun r => ostring_eqb (Some k) (Lodge_Name r)) f)).
  { intro k. unfold Pandas.count_occ_str.
    induction f as [|r f IH]; [reflexivity|]. cbn [map filter].
    destruct (ostring_eqb (Some k) (Lodge_Name r)); cbn [List.length];
      now rewrite IH. }
  split; [apply value_counts_keys_NoDup|]. split; [|split].
  - intros k c. rewrite value_counts_In, Hc, in_map_iff.
    split; intros [[r Hr] E]; (split; [exists r; tauto | assumption]).
  - apply value_counts_sorted.
  - rewrite (fold_add_nat_perm _ _ (Permutation_map snd (value_counts_perm _))).
    rewrite map_map. cbn [snd]. rewrite count_partition.
    + apply length_dropna_map.
    + apply dropna_NoDup, unique_NoDup.
    + intros k Hk. now rewrite dropna_In, unique_In.
Qed.

Lemma StronglySorted_app_inv {A : Type} (R : A -> A -> Prop) (l1 l2 : list A) :
  StronglySorted R (l1 ++ l2) ->
  forall a b, In a l1 -> In b l2 -> R a b.
Proof.
  induction l1 as [|x l1 IH]; simpl; intros Hs a b Ha Hb; [destruct Ha|].
  inversion Hs as [|? ? Hs' Hall]; subst. destruct Ha as [<-|Ha].
  - rewrite Forall_forall in Hall. apply Hall, in_or_app. now right.
  - now apply IH.
Qed.

Lemma value_counts_length (l : list (option string)) :
  List.length (Pandas.value_counts l) = Pandas.nunique l.
Proof.
  rewrite (Permutation_length (value_counts_perm l)). apply length_map.
Qed.

(** X11. The nationality table is the head of the nationalities ranked
    by number of rows: it has at most ten entries, each a nationality of
    the frame with its number of rows; a nationality left out has no more
    rows than any one listed; and nothing is left out when the frame has
    at most ten nationalities. *)
Theorem nat_counts_top10 (f : DataFrame) :
  let nats := map Nationality f in
  (List.length (nat_counts f) <= 10)%nat
  /\ (forall k c, In (k, c) (nat_counts f) ->
                  In (Some k) nats /\ c = Pandas.count_occ_str k nats)
  /\ (forall k c k', In (k, c) (nat_counts f) -> In (Some k') nats ->
                     ~ In k' (map fst (nat_counts f)) ->
                     (Pandas.count_occ_str k' nats <= c)%nat)
  /\ ((Pandas.nunique nats <= 10)%nat ->
      forall k, In (Some k) nats -> In (k, Pandas.count_occ_str k nats) (nat_counts f)).
Proof.
  intros nats. unfold nat_counts. fold nats.
  set (vc := Pandas.value_counts nats).
  split; [apply firstn_le_length|]. split; [|split].
  - intros k c H. apply value_counts_In. fold vc.
    rewrite <- (firstn_skipn 10 vc). apply in_or_app. now left.
  - intros k c k' Hk Hk' Hout.
    assert (Hin : In (k', Pandas.count_occ_str k' nats) vc).
    { apply value_counts_In. tauto. }
    rewrite <- (firstn_skipn 10 vc) in Hin. apply in_app_or in Hin.
    destruct Hin as [Hin|Hin].
    + exfalso. apply Hout. apply in_map_iff.
      now exists (k', Pandas.count_occ_str k' nats).
    + pose proof (value_counts_sorted nats) as Hs. fold vc in Hs.
      rewrite <- (firstn_skipn 10 vc) in Hs.
      exact (StronglySorted_app_inv _ _ _ Hs _ _ Hk Hin).
  - intros Hn k Hk. rewrite firstn_all2.
    + apply value_counts_In. tauto.
    + unfold vc. now rewrite value_counts_length.
Qed.

Lemma nat_counts_top10_witness :
  In ("NA"%string, Pandas.count_occ_str "NA" (map Nationality Sample.two_units))
    (nat_counts Sample.two_units).
Proof.
  apply (proj2 (proj2 (proj2 (nat_counts_top10 Sample.two_units)))).
  - vm_compute. lia.
  - simpl. now left.
Defined.

(** ** More on the monthly trend *)

(** The key under which the trend counts a row, if it counts it. *)
Lemma group_count_key (f : DataFrame) (k : string) :
  group_count f k
  = Pandas.count_occ_str k
      (map (fun r => match Booking_Ref r with
                     | Some _ => Some (Month r)
                     | None => None
                     end) f).
Proof.
  unfold group_count, Pandas.count_occ_str.
  induction f as [|r f IH]; [reflexivity|]. cbn [map filter].
  rewrite (String.eqb_sym (Month r) k).
  destruct (String.eqb k (Month r)) eqn:E; cbn [map];
    destruct (Booking_Ref r) as [b|]; cbn [ostring_eqb dropna List.length];
    rewrite ?E; cbn [List.length]; now rewrite IH.
Qed.

(** X12. Every row with a booking reference is counted in exactly one
    month of the trend: the counts add up to the number of such rows. *)
Theorem trend_data_total (f : DataFrame) :
  fold_right Nat.add O (map snd (trend_data f))
  = List.length (filter (fun r => match Booking_Ref r with
                                  | Some _ => true | None => false end) f).
Proof.
  unfold trend_data. rewrite map_map. cbn [snd].
  rewrite (map_ext _ _ (group_count_key f)).
  rewrite count_partition.
  - rewrite length_dropna_map. f_equal.
    induction f as [|r f IH]; [reflexivity|]. cbn [filter].
    destruct (Booking_Ref r); now rewrite IH.
  - apply group_keys_NoDup.
  - intros k Hk. apply in_map_iff in Hk. destruct Hk as [r [E Hr]].
    apply group_keys_In. exists r. split; [assumption|].
    destruct (Booking_Ref r); [now injection E | discriminate].
Qed.

Lemma string_compare_refl (s : string) : String.compare s s = Eq.
Proof.
  induction s as [|a s IH]; simpl; [reflexivity|].
  now rewrite ascii_compare_refl.
Qed.

(** X13. In a frame returned by [load_data], two rows have the same
    'Month' key exactly when they arrive in the same month of the same
    year: the groups of the trend are the calendar months. *)
Theorem month_key_same_month (w w' : World) (df : DataFrame) (r1 r2 : Row) :
  load_data w = (Ok df, w') -> In r1 df -> In r2 df ->
  (Month r1 = Month r2 <->
   year_of (Arrival_Date r1) = year_of (Arrival_Date r2)
   /\ month_of (Arrival_Date r1) = month_of (Arrival_Date r2)).
Proof.
  intros Hload H1 H2. apply load_data_arrivals in Hload.
  rewrite Forall_forall in Hload.
  assert (F1 : four_digit_year (Arrival_Date r1)).
  { specialize (Hload r1 H1). apply year_of_range in Hload.
    unfold four_digit_year. lia. }
  assert (F2 : four_digit_year (Arrival_Date r2)).
  { specialize (Hload r2 H2). apply year_of_range in Hload.
    unfold four_digit_year. lia. }
  pose proof (period_M_str_compare _ _ F1 F2) as Hc.
  pose proof (ord2ymd_month_range (Arrival_Date r1)) as M1.
  pose proof (ord2ymd_month_range (Arrival_Date r2)) as M2.
  unfold Month, period_ordinal in *. split.
  - intros E. rewrite E, string_compare_refl in Hc. symmetry in Hc.
    apply Z.compare_eq_iff in Hc. lia.
  - intros [Ey Em]. apply String.compare_eq_iff. rewrite Hc.
    apply Z.compare_eq_iff. lia.
Qed.

Lemma month_key_same_month_witness :
  let r1 := nth 0 Sample.loaded_march_january Sample.march in
  let r2 := nth 1 Sample.loaded_march_january Sample.january in
  (Month r1 = Month r2 <->
   year_of (Arrival_Date r1) = year_of (Arrival_Date r2)
   /\ month_of (Arrival_Date r1) = month_of (Arrival_Date r2))
  /\ Month r1 = "2023-03"%string /\ Month r2 = "2023-01"%string.
Proof.
  intros r1 r2. split; [|split; vm_compute; reflexivity].
  apply (month_key_same_month Sample.world_march_january
           (snd (load_data Sample.world_march_january))
           Sample.loaded_march_january).
  - vm_compute. reflexivity.
  - vm_compute. now left.
  - vm_compute. right. now left.
Defined.

(** ** Independence of the order of the rows

    The query has no ORDER BY: the server may return the rows in any
    order. *)

Lemma nunique_perm (l l' : list (option string)) :
  Permutation l l' -> Pandas.nunique l = Pandas.nunique l'.
Proof.
  intros P. unfold Pandas.nunique.
  apply Permutation_length, dropna_perm, (unique_from_perm _ ostring_eqb_eq), P.
Qed.

Lemma mode_perm (l l' : list (option string)) :
  Permutation l l' -> Pandas.mode l = Pandas.mode l'.
Proof.
  intros P. unfold Pandas.mode.
  assert (Pc : Permutation
                 (map (fun k => (k, Pandas.count_occ_str k l)) (dropna (Pandas.unique l)))
                 (map (fun k => (k, Pandas.count_occ_str k l')) (dropna (Pandas.unique l')))).
  { rewrite (map_ext (fun k => (k, Pandas.count_occ_str k l))
               (fun k => (k, Pandas.count_occ_str k l'))).
    - apply Permutation_map, dropna_perm, (unique_from_perm _ ostring_eqb_eq), P.
    - intro k. now rewrite (count_occ_str_perm k l l' P). }
  cbv zeta. rewrite (fold_max_perm _ _ (Permutation_map snd Pc)).
  apply sort_strings_perm_eq, Permutation_map, filter_perm, Pc.
Qed.

(** X14. The number of bookings, the number of guests and the top
    nationality of a selection (or the failure to compute it) do not
    depend on the order in which the rows were loaded. *)
Theorem kpis_row_order (df df' : DataFrame) (s : Selection) :
  Permutation df df' ->
  let f := filtered_df df s in
  let f' := filtered_df df' s in
  total_bookings f = total_bookings f'
  /\ total_guests f = total_guests f'
  /\ top_nat f = top_nat f'.
Proof.
  intros P f f'.
  assert (Pf : Permutation f f') by apply filter_perm, P.
  split; [|split].
  - apply nunique_perm, Permutation_map, Pf.
  - apply fold_add_perm, dropna_perm, Permutation_map, Pf.
  - unfold top_nat. destruct f as [|r f0], f' as [|r' f0']; try reflexivity.
    + apply Permutation_nil in Pf. discriminate.
    + apply Permutation_sym, Permutation_nil in Pf. discriminate.
    + now rewrite (mode_perm _ _ (Permutation_map Nationality Pf)).
Qed.

Lemma kpis_row_order_witness :
  let s :=
    {| start_date := Sample.d_2023_01_10; end_date := Sample.d_2023_03_05;
          selected_lodges := [Some "Sesriem"%string];
          selected_status := [Some "C"%string] |} in
  top_nat (filtered_df Sample.march_january s)
  = top_nat (filtered_df [Sample.january; Sample.march] s).
Proof.
  intro s.
  apply (proj2 (proj2 (kpis_row_order Sample.march_january
                         [Sample.january; Sample.march] s (perm_swap _ _ _)))).
Defined.

(** X15. Nor does the monthly trend: the same rows in another order
    give the same months with the same counts, in the same sequence. *)
Theorem trend_row_order (df df' : DataFrame) (s : Selection) :
  Permutation df df' ->
  trend_data (filtered_df df s) = trend_data (filtered_df df' s).
Proof.
  intros P.
  assert (Pf : Permutation (filtered_df df s) (filtered_df df' s))
    by apply filter_perm, P.
  unfold trend_data.
  assert (Ek : group_keys (filtered_df df s) = group_keys (filtered_df df' s)).
  { unfold group_keys.
    apply sort_strings_perm_eq, (unique_from_perm _ String.eqb_eq), Permutation_map, Pf. }
  rewrite Ek. apply map_ext. intro k. f_equal. unfold group_count.
  apply Permutation_length, dropna_perm, Permutation_map, filter_perm, Pf.
Qed.

Lemma trend_row_order_witness :
  let s :=
    {| start_date := Sample.d_2023_01_10; end_date := Sample.d_2023_03_05;
          selected_lodges := [Some "Sesriem"%string];
          selected_status := [Some "C"%string] |} in
  trend_data (filtered_df Sample.march_january s)
  = trend_data (filtered_df [Sample.january; Sample.march] s).
Proof.
  intro s.
  apply (trend_row_order Sample.march_january [Sample.january; Sample.march] s).
  apply perm_swap.
Defined.

(** ** The result set of the query *)

Lemma select_row_fields (B : Sql.bkmain) (C : Sql.clmain) (BU : option Sql.bkunit)
    (BUT : option Sql.bkunittp) (D : option Sql.spdept) (r : Sql.row) :
  Sql.select_row ((((B, C), BU), BUT), D) = Ok (Some r) ->
  Sql.Lodge_Name r = Sql.col Sql.department_description D
  /\ Sql.Lodge_Code r = Sql.col Sql.department_code D
  /\ Sql.Booking_Ref r = Sql.booking_reference B
  /\ Sql.Status_Code r = Sql.booking_status B
  /\ Sql.decode_minute (Sql.arrival_minute B) = Ok (Some (Sql.Arrival_Date r))
  /\ Sql.decode_minute (Sql.departure_minute B) = Ok (Sql.Departure_Date r)
  /\ Sql.decode_minute (Sql.creation_minute B) = Ok (Sql.Date_Booked r)
  /\ Sql.Total_Adults r
     = Sql.sql_add (Sql.adult_category_1_quantity B) (Sql.adult_category_2_quantity B)
  /\ Sql.Total_Children r
     = Sql.sql_add (Sql.child_category_1_quantity B) (Sql.child_category_2_quantity B)
  /\ Sql.Unit_Type r = Sql.col Sql.unit_type_description BUT
  /\ Sql.Unit_Number r = Sql.col Sql.unit_name BU
  /\ Sql.Nationality r = Sql.client_nationality C.
Proof.
  unfold Sql.select_row.
  destruct (Sql.decode_minute (Sql.arrival_minute B)) as [[a|]|e];
    simpl; try discriminate.
  destruct (Sql.is_true _); [|discriminate].
  destruct (Sql.decode_minute (Sql.departure_minute B)) as [dep|e];
    simpl; [|discriminate].
  destruct (Sql.decode_minute (Sql.creation_minute B)) as [cre|e];
    simpl; [|discriminate].
  intros H. injection H as <-. simpl. repeat split; reflexivity.
Qed.

Lemma inner_join_In {L R : Type} (on : L -> R -> Sql.tv)
    (ls : list L) (rs : list R) (l : L) (r : R) :
  In (l, r) (Sql.inner_join on ls rs) <->
  In l ls /\ In r rs /\ on l r = Some true.
Proof.
  unfold Sql.inner_join. rewrite in_flat_map. split.
  - intros [l' [Hl H]]. apply in_map_iff in H. destruct H as [r' [E Hr]].
    injection E as -> ->. apply filter_In in Hr. destruct Hr as [Hr Ht].
    repeat split; try assumption.
    unfold Sql.is_true in Ht. destruct (on l r) as [[|]|]; congruence.
  - intros (Hl & Hr & Hon). exists l. split; [assumption|].
    apply in_map_iff. exists r. split; [reflexivity|].
    apply filter_In. split; [assumption|]. now rewrite Hon.
Qed.

Lemma left_join_In_Some {L R : Type} (on : L -> R -> Sql.tv)
    (ls : list L) (rs : list R) (l : L) (r : R) :
  In l ls -> In r rs -> on l r = Some true ->
  In (l, Some r) (Sql.left_join on ls rs).
Proof.
  intros Hl Hr Hon. unfold Sql.left_join. apply in_flat_map. exists l.
  split; [assumption|].
  assert (Hf : In r (filter (fun r0 => Sql.is_true (on l r0)) rs)).
  { apply filter_In. split; [assumption|]. now rewrite Hon. }
  destruct (filter (fun r0 => Sql.is_true (on l r0)) rs) as [|x xs] eqn:E;
    [destruct Hf|].
  apply in_map_iff. exists r. split; [reflexivity | assumption].
Qed.

Lemma Forall2_In_l {A B : Type} (R : A -> B -> Prop) (l : list A) (bs : list B) (a : A) :
  Forall2 R l bs -> In a l -> exists b, In b bs /\ R a b.
Proof.
  induction 1 as [|a' b l bs Hab HF IH]; simpl; [tauto|].
  intros [<-|H].
  - exists b. auto.
  - destruct (IH H) as [b' [Hb' HR]]. exists b'. auto.
Qed.

(** X16. What the query never returns: every row of the result set is
    built from a booking, its guest, a unit, the unit's type and the
    type's department, all present and joined on their keys, with the
    guest and the department not marked deleted and the arrival decoded to
    a date on or after 2023-01-01; its columns are those of these
    records. *)
Theorem query_sound (db : Sql.Database) (rows : list Sql.row) (r : Sql.row) :
  Sql.query db = Ok rows -> In r rows ->
  exists B C BU BUT D,
    In B (Sql.tbl_bkmain db) /\ In C (Sql.tbl_clmain db)
    /\ In BU (Sql.tbl_bkunit db) /\ In BUT (Sql.tbl_bkunittp db)
    /\ In D (Sql.tbl_spdept db)
    /\ Sql.sql_eq (Sql.guest_clmain B) (Sql.client_clmain C) = Some true
    /\ Sql.sql_eq (Sql.id_bkunit B) (Sql.booking_unit_bkunit BU) = Some true
    /\ Sql.sql_eq (Sql.unit_type_bkunittp BU) (Sql.id_bkunittp BUT) = Some true
    /\ Sql.sql_eq (Sql.location_department_bkunittp BUT) (Sql.department_spdept D)
       = Some true
    /\ Sql.c_record_marked_deleted C = Some 0
    /\ Sql.d_record_marked_deleted D = Some 0
    /\ ymd2ord 2023 1 1 <= Sql.Arrival_Date r
    /\ Sql.select_row ((((B, C), Some BU), Some BUT), Some D) = Ok (Some r)
    /\ Sql.Lodge_Name r = Sql.department_description D
    /\ Sql.Booking_Ref r = Sql.booking_reference B
    /\ Sql.Status_Code r = Sql.booking_status B
    /\ Sql.Unit_Number r = Sql.unit_name BU
    /\ Sql.Nationality r = Sql.client_nationality C.
Proof.
  intros Hq Hr. destruct (query_rows _ _ _ Hq Hr) as [j [Hj Hs]].
  pose proof (select_row_Some _ _ Hs) as Hsel.
  destruct j as [[[[B C] BU] BUT] D].
  destruct Hsel as (Harr & _ & Hc & dept & -> & Hd).
  pose proof (select_row_fields _ _ _ _ _ _ Hs)
    as (F1 & _ & F3 & F4 & _ & _ & _ & _ & _ & _ & F11 & F12).
  unfold Sql.from_clause in Hj.
  apply left_join_Some in Hj. destruct Hj as (Hj & HD & Hon3).
  destruct BUT as [but|]; [|discriminate].
  apply left_join_Some in Hj. destruct Hj as (Hj & HBUT & Hon2).
  destruct BU as [bu|]; [|discriminate].
  apply left_join_Some in Hj. destruct Hj as (Hj & HBU & Hon1).
  apply inner_join_In in Hj. destruct Hj as (HB & HC & Hon0).
  exists B, C, bu, but, dept. simpl in Hon2, Hon3, F1, F11.
  repeat split; try assumption; lia.
Qed.

Lemma query_sound_witness :
  exists B, In B (Sql.tbl_bkmain (Sample.db_of Sample.booking_with_unit))
            /\ Some "B1"%string = Sql.booking_reference B.
Proof.
  set (r := {| Sql.Lodge_Name := Some "Sesriem"%string;
               Sql.Lodge_Code := Some "SES"%string;
               Sql.Booking_Ref := Some "B1"%string;
               Sql.Status_Code := Some "C"%string;
               Sql.Arrival_Date := 738686;
               Sql.Departure_Date := Some 738688;
               Sql.Date_Booked := Some 738656;
               Sql.Total_Adults := Some 3;
               Sql.Total_Children := Some 1;
               Sql.Unit_Type := Some "Chalet"%string;
               Sql.Unit_Number := Some "12A"%string;
               Sql.Nationality := Some "NA"%string |}).
  destruct (query_sound (Sample.db_of Sample.booking_with_unit) [r] r)
    as (B & C & BU & BUT & D & HB & H).
  - vm_compute. reflexivity.
  - now left.
  - exists B. split; [assumption|].
    change (Some "B1"%string) with (Sql.Booking_Ref r). tauto.
Defined.

(** X17. What the query does not lose: when it returns, a booking whose
    guest, unit, unit type and department exist and join on their keys,
    with guest and department not marked deleted and an arrival decoded to
    a date on or after 2023-01-01, has its row in the result set. *)
Theorem query_complete (db : Sql.Database) (rows : list Sql.row)
    (B : Sql.bkmain) (C : Sql.clmain) (BU : Sql.bkunit) (BUT : Sql.bkunittp)
    (D : Sql.spdept) (a : Date) :
  Sql.query db = Ok rows ->
  In B (Sql.tbl_bkmain db) -> In C (Sql.tbl_clmain db) ->
  In BU (Sql.tbl_bkunit db) -> In BUT (Sql.tbl_bkunittp db) ->
  In D (Sql.tbl_spdept db) ->
  Sql.sql_eq (Sql.guest_clmain B) (Sql.client_clmain C) = Some true ->
  Sql.sql_eq (Sql.id_bkunit B) (Sql.booking_unit_bkunit BU) = Some true ->
  Sql.sql_eq (Sql.unit_type_bkunittp BU) (Sql.id_bkunittp BUT) = Some true ->
  Sql.sql_eq (Sql.location_department_bkunittp BUT) (Sql.department_spdept D)
  = Some true ->
  Sql.c_record_marked_deleted C = Some 0 ->
  Sql.d_record_marked_deleted D = Some 0 ->
  Sql.decode_minute (Sql.arrival_minute B) = Ok (Some a) ->
  ymd2ord 2023 1 1 <= a ->
  exists r, In r rows
    /\ Sql.Arrival_Date r = a
    /\ Sql.Booking_Ref r = Sql.booking_reference B
    /\ Sql.Lodge_Name r = Sql.department_description D
    /\ Sql.Unit_Number r = Sql.unit_name BU
    /\ Sql.Unit_Type r = Sql.unit_type_description BUT
    /\ Sql.Nationality r = Sql.client_nationality C.
Proof.
  intros Hq HB HC HBU HBUT HD On0 On1 On2 On3 Hc Hd Ha Hcut.
  set (j := ((((B, C), Some BU), Some BUT), Some D) : Sql.joined).
  assert (Hj : In j (Sql.from_clause db)).
  { unfold Sql.from_clause, j.
    apply left_join_In_Some; [|assumption|exact On3].
    apply left_join_In_Some; [|assumption|exact On2].
    apply left_join_In_Some; [|assumption|exact On1].
    apply inner_join_In. tauto. }
  unfold Sql.query in Hq.
  destruct (mapM Sql.select_row (Sql.from_clause db)) as [rs|e] eqn:E;
    simpl in Hq; [|discriminate].
  injection Hq as <-. apply mapM_Ok in E.
  destruct (Forall2_In_l _ _ _ _ E Hj) as [ob [Hob Hsel]].
  assert (Hw : Sql.is_true (Sql.where_clause (Some a) j) = true).
  { unfold Sql.where_clause, j. cbn [Sql.col]. rewrite Hc, Hd.
    change Sql.CUTOVER with (Some (ymd2ord 2023 1 1)). unfold Sql.sql_ge.
    apply Z.leb_le in Hcut. rewrite Hcut. reflexivity. }
  assert (Hsome : exists r, ob = Some r).
  { unfold Sql.select_row, j in Hsel. fold j in Hsel. rewrite Ha in Hsel.
    cbn [bind] in Hsel. rewrite Hw in Hsel.
    destruct (Sql.decode_minute (Sql.departure_minute B)); cbn [bind] in Hsel;
      [|discriminate].
    destruct (Sql.decode_minute (Sql.creation_minute B)); cbn [bind] in Hsel;
      [|discriminate].
    injection Hsel as <-. eexists. reflexivity. }
  destruct Hsome as [r ->]. exists r.
  pose proof (select_row_fields _ _ _ _ _ _ Hsel)
    as (F1 & _ & F3 & _ & F5 & _ & _ & _ & _ & F10 & F11 & F12).
  split; [now apply dropna_In|]. rewrite Ha in F5. injection F5 as F5.
  simpl in F1, F10, F11. repeat split; congruence.
Qed.

Lemma query_complete_witness :
  exists r, In r match Sql.query (Sample.db_of Sample.booking_with_unit) with
                 | Ok rows => rows
                 | Raise _ => []
                 end
            /\ Sql.Arrival_Date r = Sample.d_2023_06_15.
Proof.
  destruct (query_complete (Sample.db_of Sample.booking_with_unit)
              match Sql.query (Sample.db_of Sample.booking_with_unit) with
              | Ok rows => rows
              | Raise _ => []
              end
              Sample.booking_with_unit Sample.guest Sample.unit3 Sample.chalet
              Sample.sesriem Sample.d_2023_06_15)
    as (r & Hr & Ha & _);
    try (simpl; now left); try reflexivity.
  - vm_compute. discriminate.
  - exists r. split; assumption.
Defined.

(** ** From stored minutes to the loaded frame *)

Lemma decode_minute_value (m : Z) (od : option Date) :
  Sql.decode_minute (Some m) = Ok od -> od = Some (Spec.EPOCH + m / 1440).
Proof.
  unfold Sql.decode_minute. rewrite epoch_literal. unfold Sql.DATEADD_minute.
  destruct ((m <? Sql.INT_MIN) || (Sql.INT_MAX <? m)); [discriminate|].
  cbn [Sql.dt_days Sql.dt_ticks].
  assert (Ed : (0 + m * Sql.TICKS_PER_MINUTE) / Sql.TICKS_PER_DAY = m / 1440).
  { unfold Sql.TICKS_PER_DAY. rewrite Z.add_0_l.
    apply Z.div_mul_cancel_r; [lia | discriminate]. }
  rewrite Ed.
  destruct (_ && _); cbn [bind]; [|discriminate].
  unfold Sql.CAST_AS_DATE. cbn [Sql.dt_days].
  remember (Sql.BASE_1900 + (Spec.EPOCH - Sql.BASE_1900 + m / 1440)) as d eqn:Hd.
  intros H. injection H as <-. f_equal. lia.
Qed.

Lemma Some_inj {A : Type} (a b : A) : Some a = Some b -> a = b.
Proof. intros H. now injection H. Qed.

(** X18. Decoding keeps the order of the stored offsets and drops the
    time of day: a later offset never decodes to an earlier date, two
    offsets within the same day decode to the same date, and one day more
    (1440 minutes) decodes to the next date. *)
Theorem decode_minute_days (m1 m2 : Z) (d1 d2 : Date) :
  Sql.decode_minute (Some m1) = Ok (Some d1) ->
  Sql.decode_minute (Some m2) = Ok (Some d2) ->
  (m1 <= m2 -> d1 <= d2)
  /\ (m1 / 1440 = m2 / 1440 -> d1 = d2)
  /\ (m2 = m1 + 1440 -> d2 = d1 + 1)
  /\ (0 <= m2 - 1440 * (m1 / 1440) < 1440 -> d2 = d1).
Proof.
  intros H1 H2. apply decode_minute_value, Some_inj in H1.
  apply decode_minute_value, Some_inj in H2.
  generalize dependent Spec.EPOCH. intros epoch -> ->.
  split; [|split; [|split]].
  - intros H. assert (m1 / 1440 <= m2 / 1440) by (apply Z.div_le_mono; lia). lia.
  - intros H. lia.
  - intros ->. replace (m1 + 1440) with (m1 + 1 * 1440) by lia.
    rewrite Z.div_add by lia. lia.
  - intros H. assert (m2 / 1440 = m1 / 1440); [|lia].
    symmetry. apply (Z.div_unique m2 1440 (m1 / 1440) (m2 - 1440 * (m1 / 1440)));
      [left; lia | lia].
Qed.

Lemma decode_minute_days_witness :
  Spec.decode (Sample.m_2023_06_15 + 1439) = Spec.decode Sample.m_2023_06_15.
Proof.
  apply (proj2 (proj2 (proj2
           (decode_minute_days Sample.m_2023_06_15 (Sample.m_2023_06_15 + 1439)
              (Spec.decode Sample.m_2023_06_15)
              (Spec.decode (Sample.m_2023_06_15 + 1439))
              eq_refl eq_refl)))).
  vm_compute. split; [discriminate | reflexivity].
Defined.

Lemma derive_row_fields (sr : Sql.row) (r : Row) :
  derive_row sr = Ok r ->
  Lodge_Name r = Sql.Lodge_Name sr
  /\ Booking_Ref r = Sql.Booking_Ref sr
  /\ Status_Code r = Sql.Status_Code sr
  /\ Arrival_Date r = Sql.Arrival_Date sr
  /\ Departure_Date r = Sql.Departure_Date sr
  /\ Total_Adults r = Sql.Total_Adults sr
  /\ Total_Children r = Sql.Total_Children sr
  /\ Nationality r = Sql.Nationality sr
  /\ Total_Guests r = Sql.sql_add (Sql.Total_Adults sr) (Sql.Total_Children sr).
Proof.
  unfold derive_row, Pandas.to_datetime1.
  destruct (_ && _); cbn [bind]; [|discriminate].
  destruct (Pandas.to_datetime_opt _); cbn [bind]; [|discriminate].
  intros H. injection H as <-. cbn. repeat split; reflexivity.
Qed.

(** Where a row of the loaded frame comes from. *)
Lemma load_data_row_origin (w w' : World) (df : DataFrame) (r : Row) :
  load_data w = (Ok df, w') -> In r df ->
  exists (rows : list Sql.row) (sr : Sql.row) (j : Sql.joined),
    Sql.query (database w) = Ok rows /\ In sr rows
    /\ derive_row sr = Ok r
    /\ In j (Sql.from_clause (database w))
    /\ Sql.select_row j = Ok (Some sr).
Proof.
  unfold load_data, connect. destruct (reachable w); [|discriminate].
  unfold read_sql. cbn [database].
  destruct (Sql.query (database w)) as [rows|e] eqn:Eq; [|discriminate].
  destruct (derive rows) as [df0|e] eqn:Hd; [|discriminate].
  intros H Hr. injection H as -> _. pose proof Hd as Hd0. apply mapM_Ok in Hd.
  destruct (Forall2_In_r _ _ _ _ Hd Hr) as [sr [Hsr Hdr]].
  destruct (query_rows _ _ _ Eq Hsr) as [j [Hj Hs]].
  exists rows, sr, j. tauto.
Qed.

Lemma from_clause_booking (db : Sql.Database) (B : Sql.bkmain) (C : Sql.clmain)
    (BU : option Sql.bkunit) (BUT : option Sql.bkunittp) (D : option Sql.spdept) :
  In ((((B, C), BU), BUT), D) (Sql.from_clause db) -> In B (Sql.tbl_bkmain db).
Proof.
  unfold Sql.from_clause, Sql.left_join. intros H.
  assert (Hfst : forall {L R : Type} (on : L -> R -> Sql.tv) ls rs (x : L * option R),
             In x (flat_map (fun l =>
                     match filter (fun r => Sql.is_true (on l r)) rs with
                     | [] => [(l, None)]
                     | ms => map (fun r => (l, Some r)) ms
                     end) ls) -> In (fst x) ls).
  { intros L R on ls rs x Hx. apply in_flat_map in Hx. destruct Hx as [l [Hl Hx]].
    destruct (filter (fun r => Sql.is_true (on l r)) rs) as [|y ys].
    - destruct Hx as [<-|[]]. exact Hl.
    - apply in_map_iff in Hx. destruct Hx as [r' [<- _]]. exact Hl. }
  apply Hfst in H. apply Hfst in H. apply Hfst in H. cbn [fst] in H.
  apply inner_join_In in H. tauto.
Qed.

(** X19. When the category quantities stored for the bookings are
    small (missing, or between 0 and 127, so that neither SQL addition can
    overflow the column's integer type, whichever it is, and pandas adds
    exactly), the [Total Guests] of a row of a loaded frame is the sum of
    the four quantities of its booking, between 0 and 508, and it is
    missing as soon as one of the four is. *)
Theorem load_data_total_guests (w w' : World) (df : DataFrame) (r : Row) :
  (forall B, In B (Sql.tbl_bkmain (database w)) ->
             Sql.small_quantity (Sql.adult_category_1_quantity B)
             /\ Sql.small_quantity (Sql.adult_category_2_quantity B)
             /\ Sql.small_quantity (Sql.child_category_1_quantity B)
             /\ Sql.small_quantity (Sql.child_category_2_quantity B)) ->
  load_data w = (Ok df, w') -> In r df ->
  exists B, In B (Sql.tbl_bkmain (database w))
    /\ Booking_Ref r = Sql.booking_reference B
    /\ Total_Guests r
       = match Sql.adult_category_1_quantity B, Sql.adult_category_2_quantity B,
               Sql.child_category_1_quantity B, Sql.child_category_2_quantity B with
         | Some a1, Some a2, Some c1, Some c2 => Some (a1 + a2 + (c1 + c2))
         | _, _, _, _ => None
         end
    /\ (forall g, Total_Guests r = Some g -> 0 <= g <= 508).
Proof.
  intros Hsmall Hload Hr.
  destruct (load_data_row_origin _ _ _ _ Hload Hr) as (rows & sr & j & _ & _ & Hd & Hj & Hs).
  destruct j as [[[[B C] BU] BUT] D].
  apply from_clause_booking in Hj.
  apply select_row_fields in Hs.
  destruct Hs as (_ & _ & F3 & _ & _ & _ & _ & F8 & F9 & _).
  apply derive_row_fields in Hd.
  destruct Hd as (_ & G2 & _ & _ & _ & _ & _ & _ & G9).
  destruct (Hsmall B Hj) as (S1 & S2 & S3 & S4).
  exists B. split; [assumption|]. split; [congruence|].
  rewrite G9, F8, F9.
  destruct (Sql.adult_category_1_quantity B), (Sql.adult_category_2_quantity B),
    (Sql.child_category_1_quantity B), (Sql.child_category_2_quantity B);
    cbn in *; (split; [reflexivity|]); intros g Hg; try discriminate.
  injection Hg as <-. lia.
Qed.

Lemma load_data_total_guests_witness :
  exists B, In B (Sql.tbl_bkmain (Sample.db_of Sample.booking_with_unit))
    /\ Total_Guests (hd Sample.b1_unit1 Sample.loaded)
       = match Sql.adult_category_1_quantity B, Sql.adult_category_2_quantity B,
               Sql.child_category_1_quantity B, Sql.child_category_2_quantity B with
         | Some a1, Some a2, Some c1, Some c2 => Some (a1 + a2 + (c1 + c2))
         | _, _, _, _ => None
         end.
Proof.
  destruct (load_data_total_guests (Sample.world_of Sample.booking_with_unit)
              (snd (load_data (Sample.world_of Sample.booking_with_unit)))
              Sample.loaded (hd Sample.b1_unit1 Sample.loaded))
    as (B & HB & _ & HT & _).
  - intros B [<-|[]]. cbn. lia.
  - vm_compute. reflexivity.
  - vm_compute. now left.
  - exists B. split; assumption.
Defined.
